(** * Object-Detection-Backend: the Express gateway of [src/app.js]

    A shallow embedding of the two routes of [app.js] ([GET /webcam] and
    [POST /detect]) together with the callbacks they register on the child
    processes they spawn, followed by the properties of the process
    life cycle and of the responses.

    The server is modelled as a transition system.  Its state holds the two
    module-level variables of the file ([pythonProcess], [image_path]), the
    child processes spawned so far with the closure variables of their
    callbacks, the Express response objects, and an ordered trace of the
    effects performed (console output, signals, file-system calls).  One
    event is one turn of the Node event loop: an incoming request, a chunk
    on a child's stdout or stderr, a child's [close] or [error] event, or
    the completion of an asynchronous file-system call. *)

From Stdlib Require Import ZArith Ascii String DecimalString.
From stdpp Require Import gmap strings list fin_maps.

Local Open Scope Z_scope.

(** ** Strings as the code uses them *)

Module Js.

(** [String.prototype.toLowerCase], on the code units below 128; the
    other code units are left as they are (none of them is mapped onto
    a letter of the four extensions by the Unicode case tables). *)
Definition lower_ascii (c : ascii) : ascii :=
  let n := N_of_ascii c in
  if ((65 <=? n) && (n <=? 90))%N then ascii_of_N (n + 32) else c.

Fixpoint toLowerCase (s : string) : string :=
  match s with
  | EmptyString => EmptyString
  | String c r => String (lower_ascii c) (toLowerCase r)
  end.

(** Equality of two strings up to the case of their ASCII letters: what
    comparing case-insensitively means, stated without [toLowerCase]. *)
Definition upper_ascii (c : ascii) : ascii :=
  let n := N_of_ascii c in
  if ((97 <=? n) && (n <=? 122))%N then ascii_of_N (n - 32) else c.

Fixpoint ci_eqb (a b : string) : bool :=
  match a, b with
  | EmptyString, EmptyString => true
  | String x a', String y b' =>
    Ascii.eqb (upper_ascii x) (upper_ascii y) && ci_eqb a' b'
  | _, _ => false
  end.

(** The 256 code units of the model. *)
Definition all_ascii : list ascii := map ascii_of_nat (seq 0 256).

(** [Array.prototype.includes] on an array of strings. *)
Definition includes (l : list string) (x : string) : bool :=
  existsb (String.eqb x) l.

(** [String.prototype.slice (a, b)] for [0 <= a <= b <= length]. *)
Definition slice (cs : list ascii) (a b : Z) : list ascii :=
  take (Z.to_nat (b - a)) (drop (Z.to_nat a) cs).

(** The texts of a list of chunks, joined in order. *)
Definition concat (l : list string) : string := foldr String.append EmptyString l.

(** A template literal's rendering of an exit code ([number] or [null]). *)
Definition show_code (code : option Z) : string :=
  match code with
  | None => "null"
  | Some z => NilZero.string_of_int (Z.to_int z)
  end.

End Js.

(** ** [path.extname] (POSIX)

    The scan of Node's [path.posix.extname], from the last code unit to the
    first, with the five variables it keeps. *)

Module Path.

Record scan := Scan {
  startDot : Z;
  startPart : Z;
  endIdx : Z;
  matchedSlash : bool;
  preDotState : Z
}.

Definition scan0 : scan := Scan (-1) 0 (-1) true 0.

Definition is_slash (c : ascii) : bool := Ascii.eqb c "/"%char.
Definition is_dot (c : ascii) : bool := Ascii.eqb c "."%char.

(** [rev_path] is the path read backwards and [i] the index of its head. *)
Fixpoint extname_loop (rev_path : list ascii) (i : Z) (st : scan) : scan :=
  match rev_path with
  | [] => st
  | c :: rest =>
    if is_slash c then
      if negb (matchedSlash st)
      then Scan (startDot st) (i + 1) (endIdx st) (matchedSlash st) (preDotState st)
      else extname_loop rest (i - 1) st
    else
      let st1 :=
        if endIdx st =? -1
        then Scan (startDot st) (startPart st) (i + 1) false (preDotState st)
        else st in
      let st2 :=
        if is_dot c then
          if startDot st1 =? -1
          then Scan i (startPart st1) (endIdx st1) (matchedSlash st1) (preDotState st1)
          else if negb (preDotState st1 =? 1)
          then Scan (startDot st1) (startPart st1) (endIdx st1) (matchedSlash st1) 1
          else st1
        else if negb (startDot st1 =? -1)
        then Scan (startDot st1) (startPart st1) (endIdx st1) (matchedSlash st1) (-1)
        else st1 in
      extname_loop rest (i - 1) st2
  end.

Definition extname (path : string) : string :=
  let cs := list_ascii_of_string path in
  let st := extname_loop (rev cs) (Z.of_nat (length cs) - 1) scan0 in
  if (startDot st =? -1) || (endIdx st =? -1) || (preDotState st =? 0)
     || ((preDotState st =? 1) && (startDot st =? endIdx st - 1)
         && (startDot st =? startPart st + 1))
  then EmptyString
  else string_of_list_ascii (Js.slice cs (startDot st) (endIdx st)).

(** [path.join (dir, name)] for a [dir] without trailing separator and a
    plain [name], the only shape the code calls it with. *)
Definition join (dir name : string) : string := dir +:+ "/" +:+ name.

(** [path.resolve]: the arguments are taken from the right until an
    absolute one is met (the working directory [cwd], itself absolute,
    is used otherwise); then [.], [..] and empty segments are resolved. *)
Fixpoint split_go (cs cur : list ascii) : list (list ascii) :=
  match cs with
  | [] => [rev cur]
  | c :: rest =>
    if is_slash c then rev cur :: split_go rest [] else split_go rest (c :: cur)
  end.

Fixpoint normalize (segs stack : list (list ascii)) : list (list ascii) :=
  match segs with
  | [] => rev stack
  | seg :: rest =>
    match seg with
    | [] => normalize rest stack
    | _ =>
      if bool_decide (seg = ["."%char]) then normalize rest stack
      else if bool_decide (seg = ["."%char; "."%char]) then normalize rest (tail stack)
      else normalize rest (seg :: stack)
    end
  end.

Definition is_absolute (p : string) : bool :=
  match p with
  | String c _ => is_slash c
  | EmptyString => false
  end.

Fixpoint resolve_args (rev_args : list string) (acc : string) : string * bool :=
  match rev_args with
  | [] => (acc, false)
  | p :: rest =>
    match p with
    | EmptyString => resolve_args rest acc
    | _ =>
      let acc' := p +:+ "/" +:+ acc in
      if is_absolute p then (acc', true) else resolve_args rest acc'
    end
  end.

Definition resolve (cwd : string) (args : list string) : string :=
  let '(r, abs) := resolve_args (rev args) EmptyString in
  let full := if abs then r else cwd +:+ "/" +:+ r in
  let segs := normalize (split_go (list_ascii_of_string full) []) [] in
  fold_left (fun acc seg => acc +:+ "/" +:+ string_of_list_ascii seg) segs EmptyString
  +:+ (match segs with [] => "/" | _ => EmptyString end).

End Path.


(** ** Values exchanged with the outside *)

(** The JSON documents the routes answer with. *)
Local Unset Elimination Schemes.
Inductive Json :=
| JStr (s : string)
| JNum (n : Z)
| JArr (items : list Json)
| JObj (fields : list (string * Json)).
Local Set Elimination Schemes.

(** A JavaScript [Error]; only [err.message] is read by the code. *)
Record JsError := mkError { message : string }.

(** A [Buffer]: the bytes of one chunk. *)
Definition Buffer := string.

Definition Pid := nat.
Definition ReqId := nat.

Definition CRLF : string := String (ascii_of_nat 13) (String (ascii_of_nat 10) EmptyString).

(** *** Express response objects *)

Inductive Chunk :=
| CStr (s : string)
| CBuf (b : Buffer)
| CJson (j : Json).

Record Response := mkResponse {
  statusCode : Z;
  headers : gmap string string;
  headersSent : bool;
  body : list Chunk;
  finished : bool
}.

Definition fresh_response : Response := mkResponse 200 ∅ false [] false.

(** *** Child processes and the closures of their callbacks *)

(** The variables one call of the [/detect] handler closes over; the two
    accumulators are the [let] variables of lines 142-143. *)
Record Job := mkJob {
  job_res : ReqId;
  imagePath : string;
  uniqueId : string;
  outputFolder : string;
  errorMessage : string;
  resultMessage : string
}.

(** Which route spawned a child, hence which callbacks listen to it. *)
Inductive Owner :=
| WebcamProc (res : ReqId)
| DetectProc (job : Job).

Record Child := mkChild {
  command : string;
  argv : list string;
  owner : Owner;
  alive : bool;            (* its [close] event has not been emitted yet *)
  signals : list string    (* signals sent to it with [kill] *)
}.

(** Asynchronous file-system calls whose callback has not run yet. *)
Inductive FsOp :=
| PUnlink (path : string)
| PReaddir (pid : Pid) (path : string).

Global Instance FsOp_eq_dec : EqDecision FsOp.
Proof. solve_decision. Defined.

Inductive LogArg :=
| LStr (s : string)
| LError (e : JsError)
| LStrs (l : list string).

(** The observable effects, in the order the code performs them. *)
Inductive Effect :=
| ConsoleLog (args : list LogArg)
| ConsoleError (args : list LogArg)
| Spawned (pid : Pid) (cmd : string) (args : list string)
| Killed (pid : Pid) (signal : string)
| MkdirSync (path : string)
| FsUnlink (path : string)
| FsReaddir (path : string)
| Sent (res : ReqId) (status : Z) (j : Json).

(** ** The server state *)

Record State := mkState {
  pythonProcess : option Pid;          (* line 14, [null] is [None] *)
  image_path : option (list string);   (* line 13, [undefined] is [None] *)
  children : gmap Pid Child;
  responses : gmap ReqId Response;
  dirs : gset string;
  pending : list FsOp;
  trace : list Effect;
  next_pid : Pid;
  next_req : ReqId
}.

Definition init : State := mkState None None ∅ ∅ ∅ [] [] 0%nat 0%nat.

(** ** A state monad with uncaught exceptions *)

Inductive Result (A : Type) :=
| Ok (a : A)
| Uncaught (e : JsError).
Arguments Ok {A} a.
Arguments Uncaught {A} e.

Definition M (A : Type) : Type := State -> Result (A * State).

Definition ret {A} (a : A) : M A := fun s => Ok (a, s).

Definition bind {A B} (m : M A) (k : A -> M B) : M B :=
  fun s => match m s with
           | Ok (a, s') => k a s'
           | Uncaught e => Uncaught e
           end.

Definition throw {A} (msg : string) : M A := fun _ => Uncaught (mkError msg).
Definition gets {A} (f : State -> A) : M A := fun s => Ok (f s, s).
Definition modify (f : State -> State) : M unit := fun s => Ok (tt, f s).

Declare Scope js_scope.
Delimit Scope js_scope with js.
Notation "x <- m ;; k" := (bind m (fun x => k))
  (at level 100, m at next level, k at level 200, right associativity) : js_scope.
Notation "m ;; k" := (bind m (fun _ => k))
  (at level 100, k at level 200, right associativity) : js_scope.
Local Open Scope js_scope.

(** *** Field updates *)

Definition set_pythonProcess (v : option Pid) (s : State) : State :=
  mkState v (image_path s) (children s) (responses s) (dirs s) (pending s)
          (trace s) (next_pid s) (next_req s).
Definition set_image_path (v : option (list string)) (s : State) : State :=
  mkState (pythonProcess s) v (children s) (responses s) (dirs s) (pending s)
          (trace s) (next_pid s) (next_req s).
Definition set_children (v : gmap Pid Child) (s : State) : State :=
  mkState (pythonProcess s) (image_path s) v (responses s) (dirs s) (pending s)
          (trace s) (next_pid s) (next_req s).
Definition set_responses (v : gmap ReqId Response) (s : State) : State :=
  mkState (pythonProcess s) (image_path s) (children s) v (dirs s) (pending s)
          (trace s) (next_pid s) (next_req s).
Definition set_dirs (v : gset string) (s : State) : State :=
  mkState (pythonProcess s) (image_path s) (children s) (responses s) v (pending s)
          (trace s) (next_pid s) (next_req s).
Definition set_pending (v : list FsOp) (s : State) : State :=
  mkState (pythonProcess s) (image_path s) (children s) (responses s) (dirs s) v
          (trace s) (next_pid s) (next_req s).
Definition emit (e : Effect) (s : State) : State :=
  mkState (pythonProcess s) (image_path s) (children s) (responses s) (dirs s)
          (pending s) (trace s ++ [e]) (next_pid s) (next_req s).

(** ** The platform calls the code makes *)

Definition console_log (args : list LogArg) : M unit := modify (emit (ConsoleLog args)).
Definition console_error (args : list LogArg) : M unit := modify (emit (ConsoleError args)).

(** Express hands every request a response object of its own. *)
Definition new_response : M ReqId :=
  fun s =>
    let r := next_req s in
    Ok (r, mkState (pythonProcess s) (image_path s) (children s)
                   (<[r := fresh_response]> (responses s)) (dirs s) (pending s)
                   (trace s) (next_pid s) (S r)).

Definition get_response (r : ReqId) : M Response :=
  fun s => match responses s !! r with
           | Some x => Ok (x, s)
           | None => Uncaught (mkError "no such response")
           end.

Definition put_response (r : ReqId) (x : Response) : M unit :=
  modify (fun s => set_responses (<[r := x]> (responses s)) s).

(** [res.setHeader]: refused once the headers are on the wire. *)
Definition res_setHeader (r : ReqId) (k v : string) : M unit :=
  x <- get_response r ;;
  if headersSent x then throw "ERR_HTTP_HEADERS_SENT"
  else put_response r
         (mkResponse (statusCode x) (<[k := v]> (headers x)) false (body x) (finished x)).

(** [res.write]: sends the headers with the first chunk.  On a response
    that has ended the chunk is dropped (Node reports the write after end
    asynchronously and the server goes on). *)
Definition res_write (r : ReqId) (c : Chunk) : M unit :=
  x <- get_response r ;;
  if finished x then ret tt
  else put_response r
         (mkResponse (statusCode x) (headers x) true (body x ++ [c]) false).

(** [res.status (code)]. *)
Definition res_status (r : ReqId) (code : Z) : M unit :=
  x <- get_response r ;;
  put_response r (mkResponse code (headers x) (headersSent x) (body x) (finished x)).

(** [res.json (obj)], which is also what [res.send] does with an object:
    the content type is [application/json] unless one is there, the
    charset is added to it, the document is the whole body and the
    response ends. *)
Definition res_json (r : ReqId) (j : Json) : M unit :=
  x <- get_response r ;;
  if headersSent x then throw "ERR_HTTP_HEADERS_SENT"
  else
    let hs := match headers x !! "Content-Type" with
              | Some t => <["Content-Type" := t +:+ "; charset=utf-8"]> (headers x)
              | None => <["Content-Type" := "application/json; charset=utf-8"]> (headers x)
              end in
    put_response r (mkResponse (statusCode x) hs true (body x ++ [CJson j]) true) ;;
    modify (emit (Sent r (statusCode x) j)).

Definition res_send := res_json.

(** The ancestors of an absolute path, the root apart: [/a] and [/a/b]
    for [/a/b/c]. *)
Fixpoint ancestors_go (cs cur : list ascii) : list string :=
  match cs with
  | [] => []
  | c :: rest =>
    if Path.is_slash c then
      match cur with
      | [] => ancestors_go rest (c :: cur)
      | _ => string_of_list_ascii (rev cur) :: ancestors_go rest (c :: cur)
      end
    else ancestors_go rest (c :: cur)
  end.

Definition ancestors (abs_path : string) : list string :=
  ancestors_go (list_ascii_of_string abs_path) [].

(** [fs.existsSync] and [fs.mkdirSync (_, {recursive: true})] on
    directories: the directory is created together with its ancestors. *)
Definition fs_existsSync (abs_path : string) : M bool :=
  gets (fun s => bool_decide (abs_path ∈ dirs s)).

Definition fs_mkdirSync (abs_path : string) : M unit :=
  modify (fun s =>
    emit (MkdirSync abs_path)
         (set_dirs (list_to_set (abs_path :: ancestors abs_path) ∪ dirs s) s)).

(** [fs.unlink] and [fs.readdir] only start the operation; the callback
    runs in a later turn, with whatever the file system answered. *)
Definition fs_unlink (path : string) : M unit :=
  modify (fun s => emit (FsUnlink path) (set_pending (pending s ++ [PUnlink path]) s)).

Definition fs_readdir (pid : Pid) (path : string) : M unit :=
  modify (fun s => emit (FsReaddir path) (set_pending (pending s ++ [PReaddir pid path]) s)).

(** [child_process.spawn]: the child is created and its handle returned;
    a failure to start is reported later by an [error] event. *)
Definition spawn (cmd : string) (args : list string) (o : Owner) : M Pid :=
  fun s =>
    let p := next_pid s in
    Ok (p, emit (Spawned p cmd args)
             (mkState (pythonProcess s) (image_path s)
                      (<[p := mkChild cmd args o true []]> (children s))
                      (responses s) (dirs s) (pending s) (trace s) (S p) (next_req s))).

(** [child.kill (signal)]. *)
Definition kill (p : Pid) (signal : string) : M unit :=
  modify (fun s =>
    emit (Killed p signal)
      (set_children
         (alter (fun c => mkChild (command c) (argv c) (owner c) (alive c)
                                  (signals c ++ [signal])) p (children s)) s)).

(** The closure of a detection job, updated in place. *)
Definition set_job (p : Pid) (j : Job) : M unit :=
  modify (fun s =>
    set_children
      (alter (fun c => mkChild (command c) (argv c) (DetectProc j) (alive c) (signals c))
             p (children s)) s).

(** ** The result filter and the URLs (lines 182 and 190) *)

Definition image_extensions : list string := [".jpg"; ".jpeg"; ".png"; ".bmp"].

Definition is_image (file : string) : bool :=
  Js.includes image_extensions (Js.toLowerCase (Path.extname file)).

Definition imageFiles (files : list string) : list string :=
  List.filter is_image files.

Definition image_url (uniqueId file : string) : string :=
  "http://localhost:3002/output/" +:+ uniqueId +:+ "/results/" +:+ file.

Definition imageUrls (uniqueId : string) (files : list string) : list string :=
  map (image_url uniqueId) files.

(** The [image] member of the success document: a member whose value is
    [undefined] is left out by the serialiser. *)
Definition success_body (ip : option (list string)) : Json :=
  JObj (("status", JNum 200) ::
        match ip with
        | Some urls => [("image", JArr (map JStr urls))]
        | None => []
        end).

(** ** Requests and events *)

(** What multer leaves in [req.file]. *)
Record File := mkFile { file_path : string; originalname : string }.

Record DetectReq := mkDetectReq {
  req_file : option File;
  req_host : string            (* the [Host] header of the request *)
}.

Inductive Event :=
| GetWebcam (action : option string)
| PostDetect (req : DetectReq) (random_hex : string)
| ChildStdout (pid : Pid) (data : Buffer)
| ChildStderr (pid : Pid) (data : Buffer)
| ChildClose (pid : Pid) (code : option Z)
| ChildError (pid : Pid) (err : JsError)
| UnlinkDone (path : string) (err : option JsError)
| ReaddirDone (pid : Pid) (path : string) (result : JsError + list string).

(** ** The routes and the callbacks of [app.js] *)

Section Server.

(** The working directory of the server, and [Buffer.prototype.toString]
    (UTF-8 decoding of one chunk). *)
Variable cwd : string.
Variable toString : Buffer -> string.

Definition err1 (msg : string) : Json := JObj [("error", JStr msg)].
Definition err2 (msg details : string) : Json :=
  JObj [("error", JStr msg); ("details", JStr details)].

Definition ensure_dir (abs_path : string) : M unit :=
  ex <- fs_existsSync abs_path ;;
  if ex then ret tt else fs_mkdirSync abs_path.

(** [app.get ('/webcam', ...)], lines 46-110. *)
Definition webcam_get (action : option string) : M unit :=
  res <- new_response ;;
  if bool_decide (action = Some "start") then
    running <- gets pythonProcess ;;
    match running with
    | Some _ =>
      res_status res 400 ;;
      res_json res (err1 "Webcam detection is already running.")
    | None =>
      let yolov5Script := Path.resolve cwd ["./yolov5/detect.py"] in
      let outputFolder := "./output" in
      ensure_dir (Path.resolve cwd [outputFolder]) ;;
      child <- spawn "python3"
                 [yolov5Script;
                  "--weights"; "./yolov5/yolov5s.pt";
                  "--img"; "640";
                  "--conf"; "0.4";
                  "--source"; "0";
                  "--project"; outputFolder;
                  "--name"; "webcam_results"]
                 (WebcamProc res) ;;
      modify (set_pythonProcess (Some child)) ;;
      res_setHeader res "Content-Type" "multipart/x-mixed-replace; boundary=frame" ;;
      console_log [LStr "Webcam detection started..."]
    end
  else if bool_decide (action = Some "stop") then
    running <- gets pythonProcess ;;
    match running with
    | Some child =>
      kill child "SIGTERM" ;;
      modify (set_pythonProcess None) ;;
      console_log [LStr "Webcam detection stopped."] ;;
      res_status res 200 ;;
      res_json res (JObj [("message", JStr "Webcam detection stopped.")])
    | None =>
      res_status res 400 ;;
      res_json res (err1 "No webcam detection process is running.")
    end
  else
    res_status res 400 ;;
    res_json res (err1 "Invalid action. Use ?action=start or ?action=stop").

(** The callbacks of the webcam child, lines 77-94. *)
Definition webcam_on_stdout (res : ReqId) (data : Buffer) : M unit :=
  res_write res (CStr ("--frame" +:+ CRLF)) ;;
  res_write res (CStr ("Content-Type: image/jpeg" +:+ CRLF +:+ CRLF)) ;;
  res_write res (CBuf data) ;;
  res_write res (CStr CRLF).

Definition webcam_on_close (code : option Z) : M unit :=
  console_log [LStr ("Python process finished with exit code " +:+ Js.show_code code)] ;;
  modify (set_pythonProcess None).

Definition webcam_on_error (res : ReqId) (err : JsError) : M unit :=
  console_error [LStr "Python process error:"; LError err] ;;
  res_status res 500 ;;
  res_json res (err2 "Failed to start Python process" (message err)).

(** [app.post ('/detect', ...)], lines 114-208. *)
Definition detect_post (req : DetectReq) (random_hex : string) : M unit :=
  res <- new_response ;;
  match req_file req with
  | None =>
    res_status res 400 ;;
    res_json res (err1 "No image uploaded")
  | Some file =>
    let imagePath := Path.resolve cwd [file_path file] in
    let yolov5Script := Path.resolve cwd ["./yolov5/detect.py"] in
    let uniqueId := random_hex in
    let outputFolder := Path.resolve cwd ["./output"; uniqueId] in
    ensure_dir outputFolder ;;
    _ <- spawn "python3.11"
           [yolov5Script;
            "--weights"; "./yolov5/yolov5s.pt";
            "--img"; "640";
            "--conf"; "0.4";
            "--source"; imagePath;
            "--project"; outputFolder;
            "--name"; "results"]
           (DetectProc (mkJob res imagePath uniqueId outputFolder EmptyString EmptyString)) ;;
    console_log [LStr "Python process started for object detection..."]
  end.

(** The callbacks of a detection child, lines 146-204. *)
Definition detect_on_stdout (pid : Pid) (job : Job) (data : Buffer) : M unit :=
  set_job pid (mkJob (job_res job) (imagePath job) (uniqueId job) (outputFolder job)
                     (errorMessage job) (resultMessage job +:+ toString data)) ;;
  console_log [LStr (toString data)].

Definition detect_on_stderr (pid : Pid) (job : Job) (data : Buffer) : M unit :=
  set_job pid (mkJob (job_res job) (imagePath job) (uniqueId job) (outputFolder job)
                     (errorMessage job +:+ toString data) (resultMessage job)) ;;
  console_error [LStr (toString data)].

(** [code !== 0] *)
Definition nonzero (code : option Z) : bool :=
  match code with
  | Some 0 => false
  | _ => true
  end.

Definition detect_on_close (pid : Pid) (job : Job) (code : option Z) : M unit :=
  fs_unlink (imagePath job) ;;
  console_log [LStr ("Python process finished with exit code " +:+ Js.show_code code)] ;;
  if nonzero code then
    console_error [LStr "Python process error:"; LStr (errorMessage job)] ;;
    res_status (job_res job) 500 ;;
    res_json (job_res job) (err2 "Detection failed" (errorMessage job))
  else
    let resultFolder := Path.join (outputFolder job) "results" in
    fs_readdir pid resultFolder.

Definition unlink_callback (err : option JsError) : M unit :=
  match err with
  | Some e => console_error [LStr "Failed to delete uploaded file:"; LError e]
  | None => ret tt
  end.

Definition readdir_callback (job : Job) (result : JsError + list string) : M unit :=
  match result with
  | inl err =>
    console_error [LStr "Error reading result folder:"; LError err] ;;
    res_status (job_res job) 500 ;;
    res_json (job_res job) (err1 "Failed to read result folder")
  | inr files =>
    let imageFiles := imageFiles files in
    if (length imageFiles =? 0)%nat then
      console_error [LStr "No images found in result folder"] ;;
      res_status (job_res job) 500 ;;
      res_json (job_res job) (err1 "No images generated")
    else
      let imageUrls := imageUrls (uniqueId job) imageFiles in
      console_log [LStr "Generated image URLs:"; LStrs imageUrls] ;;
      modify (set_image_path (Some imageUrls)) ;;
      ip <- gets image_path ;;
      res_send (job_res job) (success_body ip)
  end.

Definition detect_on_error (job : Job) (err : JsError) : M unit :=
  console_error [LStr "Python process error:"; LError err] ;;
  res_status (job_res job) 500 ;;
  res_json (job_res job) (err2 "Failed to start the Python process" (message err)).

(** ** One turn of the event loop *)

(** A child's [close] is its last event. *)
Definition mark_closed (p : Pid) : M unit :=
  modify (fun s =>
    set_children
      (alter (fun c => mkChild (command c) (argv c) (owner c) false (signals c))
             p (children s)) s).

Fixpoint remove_first (op : FsOp) (l : list FsOp) : list FsOp :=
  match l with
  | [] => []
  | x :: r => if bool_decide (x = op) then r else x :: remove_first op r
  end.

Definition complete (op : FsOp) : M unit :=
  modify (fun s => set_pending (remove_first op (pending s)) s).

Definition handle (e : Event) : M unit :=
  match e with
  | GetWebcam action => webcam_get action
  | PostDetect req random_hex => detect_post req random_hex
  | ChildStdout p data =>
    c <- gets (fun s => children s !! p) ;;
    match owner <$> c with
    | Some (WebcamProc res) => webcam_on_stdout res data
    | Some (DetectProc job) => detect_on_stdout p job data
    | None => ret tt
    end
  | ChildStderr p data =>
    c <- gets (fun s => children s !! p) ;;
    match owner <$> c with
    | Some (DetectProc job) => detect_on_stderr p job data
    | _ => ret tt
    end
  | ChildClose p code =>
    mark_closed p ;;
    c <- gets (fun s => children s !! p) ;;
    match owner <$> c with
    | Some (WebcamProc _) => webcam_on_close code
    | Some (DetectProc job) => detect_on_close p job code
    | None => ret tt
    end
  | ChildError p err =>
    c <- gets (fun s => children s !! p) ;;
    match owner <$> c with
    | Some (WebcamProc res) => webcam_on_error res err
    | Some (DetectProc job) => detect_on_error job err
    | None => ret tt
    end
  | UnlinkDone path err =>
    complete (PUnlink path) ;;
    unlink_callback err
  | ReaddirDone p path result =>
    complete (PReaddir p path) ;;
    c <- gets (fun s => children s !! p) ;;
    match owner <$> c with
    | Some (DetectProc job) => readdir_callback job result
    | _ => ret tt
    end
  end.

(** 32 lower-case hexadecimal digits: [randomBytes (16).toString ('hex')]. *)
Definition is_hex_digit (c : ascii) : bool :=
  let n := N_of_ascii c in
  ((48 <=? n) && (n <=? 57) || (97 <=? n) && (n <=? 102))%N.

Definition is_job_id (x : string) : bool :=
  let cs := list_ascii_of_string x in
  (length cs =? 32)%nat && forallb is_hex_digit cs.

Definition is_alive (p : Pid) (s : State) : bool :=
  match children s !! p with
  | Some c => alive c
  | None => false
  end.

(** The events the environment can deliver in a state. *)
Definition enabled (e : Event) (s : State) : bool :=
  match e with
  | GetWebcam _ => true
  | PostDetect _ random_hex => is_job_id random_hex
  | ChildStdout p _ | ChildStderr p _ | ChildClose p _ | ChildError p _ => is_alive p s
  | UnlinkDone path _ => bool_decide (PUnlink path ∈ pending s)
  | ReaddirDone p path _ => bool_decide (PReaddir p path ∈ pending s)
  end.

Definition step (e : Event) (s : State) : Result State :=
  match handle e s with
  | Ok (_, s') => Ok s'
  | Uncaught x => Uncaught x
  end.

(** A run stops at the first event that is not enabled, and an uncaught
    exception in a callback ends the server. *)
Fixpoint run (es : list Event) (s : State) : option State :=
  match es with
  | [] => Some s
  | e :: rest =>
    if enabled e s then
      match step e s with
      | Ok s' => run rest s'
      | Uncaught _ => None
      end
    else None
  end.

Definition reachable (s : State) : Prop := exists es, run es init = Some s.

(** The webcam children whose [close] event has not been emitted. *)
Definition is_webcam (c : Child) : bool :=
  match owner c with
  | WebcamProc _ => true
  | DetectProc _ => false
  end.

Definition active_webcam (s : State) : list Pid :=
  (List.filter (fun pc : Pid * Child => is_webcam pc.2 && alive pc.2)
               (map_to_list (children s))).*1.

(** ** Vocabulary of the properties *)

(** The response object a child's callbacks write to. *)
Definition owner_res (o : Owner) : ReqId :=
  match o with
  | WebcamProc r => r
  | DetectProc j => job_res j
  end.

(** Identifiers are handed out in increasing order, and no two children
    answer on the same response object. *)
Record wf (s : State) : Prop := mkWf {
  wf_pid : forall p c, children s !! p = Some c -> (p < next_pid s)%nat;
  wf_res : forall p c, children s !! p = Some c ->
           (owner_res (owner c) < next_req s)%nat;
  wf_inj : forall p1 p2 c1 c2,
           children s !! p1 = Some c1 -> children s !! p2 = Some c2 ->
           owner_res (owner c1) = owner_res (owner c2) -> p1 = p2
}.

(** Child [p] runs detection job [job] and nothing has been sent on the
    job's response yet. *)
Definition awaiting (s : State) (p : Pid) (job : Job) : Prop :=
  (exists c, children s !! p = Some c /\ owner c = DetectProc job) /\
  responses s !! job_res job = Some fresh_response.

(** The child an event belongs to. *)
Definition event_pid (e : Event) : option Pid :=
  match e with
  | ChildStdout p _ | ChildStderr p _ | ChildClose p _ | ChildError p _
  | ReaddirDone p _ _ => Some p
  | GetWebcam _ | PostDetect _ _ | UnlinkDone _ _ => None
  end.

(** [close], [error] and the directory listing are the events of child
    [p] on which its job answers. *)
Definition answers (p : Pid) (e : Event) : bool :=
  match e with
  | ChildClose q _ | ChildError q _ | ReaddirDone q _ _ => bool_decide (q = p)
  | _ => false
  end.

Definition quiet (p : Pid) (es : list Event) : bool :=
  forallb (fun e => negb (answers p e)) es.

(** The stderr (stdout) chunks of child [p] among [es], in arrival order. *)
Definition stderr_chunks (p : Pid) (es : list Event) : list Buffer :=
  omap (fun e => match e with
                 | ChildStderr q data => if bool_decide (q = p) then Some data else None
                 | _ => None
                 end) es.

Definition stdout_chunks (p : Pid) (es : list Event) : list Buffer :=
  omap (fun e => match e with
                 | ChildStdout q data => if bool_decide (q = p) then Some data else None
                 | _ => None
                 end) es.

Definition text_of (chunks : list Buffer) : string :=
  Js.concat (map toString chunks).

(** The closure of the job a [POST /detect] request starts in state [s]. *)
Definition new_job (s : State) (file : File) (random_hex : string) : Job :=
  mkJob (next_req s) (Path.resolve cwd [file_path file]) random_hex
        (Path.resolve cwd ["./output"; random_hex]) EmptyString EmptyString.

Definition with_output (job : Job) (err out : string) : Job :=
  mkJob (job_res job) (imagePath job) (uniqueId job) (outputFolder job)
        (errorMessage job +:+ err) (resultMessage job +:+ out).

(** The command line of the webcam child (lines 64-72). *)
Definition webcam_argv : list string :=
  [Path.resolve cwd ["./yolov5/detect.py"];
   "--weights"; "./yolov5/yolov5s.pt"; "--img"; "640"; "--conf"; "0.4";
   "--source"; "0"; "--project"; "./output"; "--name"; "webcam_results"].

Definition json_response (status : Z) (j : Json) : Response :=
  mkResponse status {["Content-Type" := "application/json; charset=utf-8"]}
             true [CJson j] true.

End Server.

(** ** Further vocabulary *)

(** Code units that are no separator, and those that are neither a
    separator nor a dot. *)
Definition noslash (c : ascii) : Prop := Path.is_slash c = false.
Definition plain (c : ascii) : Prop := Path.is_slash c = false /\ Path.is_dot c = false.

(** A path segment that [path.resolve] keeps as it is. *)
Definition plain_segment (seg : list ascii) : Prop :=
  Forall noslash seg /\ seg <> [] /\ seg <> ["."%char] /\ seg <> ["."%char; "."%char].

Definition join_segments (segs : list (list ascii)) : string :=
  fold_left (fun acc seg => acc +:+ "/" +:+ string_of_list_ascii seg) segs EmptyString.

(** A number in a template literal (an integer, as [Date.now ()] is). *)
Definition show_int (z : Z) : string := NilZero.string_of_int (Z.to_int z).

(** The [filename] function given to [multer.diskStorage], lines 25-29. *)
Definition multer_filename (fieldname : string) (now : Z) (originalname : string) : string :=
  let ext := Path.extname originalname in
  fieldname +:+ "-" +:+ show_int now +:+ ext.

(** The multipart section written for one stdout chunk (lines 80-83). *)
Definition mjpeg_frame (data : Buffer) : list Chunk :=
  [CStr ("--frame" +:+ CRLF);
   CStr ("Content-Type: image/jpeg" +:+ CRLF +:+ CRLF);
   CBuf data;
   CStr CRLF].

(** No [error] event of child [p] among [es]. *)
Definition no_error (p : Pid) (es : list Event) : bool :=
  forallb (fun e => match e with
                    | ChildError q _ => negb (bool_decide (q = p))
                    | _ => true
                    end) es.

(** The stream of a webcam session: the response of the start request
    after the chunks [chunks] were relayed. *)
Definition stream_response (chunks : list Buffer) : Response :=
  mkResponse 200 {["Content-Type" := "multipart/x-mixed-replace; boundary=frame"]}
             (negb (bool_decide (chunks = []))) (concat (map mjpeg_frame chunks)) false.

(** The command line of a detection child (lines 132-140). *)
Definition detect_argv (cwd : string) (file : File) (random_hex : string) : list string :=
  [Path.resolve cwd ["./yolov5/detect.py"];
   "--weights"; "./yolov5/yolov5s.pt"; "--img"; "640"; "--conf"; "0.4";
   "--source"; Path.resolve cwd [file_path file];
   "--project"; Path.resolve cwd ["./output"; random_hex];
   "--name"; "results"].

(** Whenever the handle is set it refers to a webcam child that has not
    closed and was never signalled; detection children are never
    signalled, and no child is signalled twice. *)
Record handle_ok (s : State) : Prop := mkHandleOk {
  ho_handle : forall p, pythonProcess s = Some p ->
    exists c, children s !! p = Some c /\ is_webcam c = true /\
              alive c = true /\ signals c = [];
  ho_detect : forall p c, children s !! p = Some c -> is_webcam c = false ->
    signals c = [];
  ho_once : forall p c, children s !! p = Some c ->
    signals c = [] \/ signals c = ["SIGTERM"]
}.

(** ** A sample deployment

    A working directory, chunks of ASCII text (which decode to themselves)
    and two uploads, used to run the server on concrete events. *)

Definition sample_cwd : string := "/srv/app".
Definition ascii_text (b : Buffer) : string := b.

Definition id_a : string := "0123456789abcdef0123456789abcdef".
Definition id_b : string := "00112233445566778899aabbccddeeff".

Definition file_a : File := mkFile "uploads/image-1700000000000.jpg" "street.jpg".
Definition file_b : File := mkFile "uploads/image-1700000000001.png" "dog.png".
Definition upload_a : DetectReq := mkDetectReq (Some file_a) "localhost:3002".
Definition upload_b : DetectReq := mkDetectReq (Some file_b) "detector.example.org".

Definition results_a : string := "/srv/app/output/0123456789abcdef0123456789abcdef/results".
Definition results_b : string := "/srv/app/output/00112233445566778899aabbccddeeff/results".

(** The state the sample server is in after the events [es]. *)
Definition after (es : list Event) : State :=
  default init (run sample_cwd ascii_text es init).

Definition enoent : JsError := mkError "spawn python3 ENOENT".

(** A job that fails: two stderr chunks, with a stdout chunk and a webcam
    request in between. *)
Definition failing_events : list Event :=
  [ChildStderr 0%nat "Traceback ";
   ChildStdout 0%nat "loading weights";
   GetWebcam (Some "start");
   ChildStderr 0%nat "(most recent call last)"].

(** A job that succeeds, the deletion of the upload failing meanwhile. *)
Definition succeeding_events : list Event :=
  [PostDetect upload_a id_a;
   ChildStdout 0%nat "image 1/1";
   ChildClose 0%nat (Some 0);
   UnlinkDone "/srv/app/uploads/image-1700000000000.jpg" (Some (mkError "EPERM"))].

Definition listing_a : list string := ["bus.JPG"; "labels"; "notes.txt"; "zidane.png"].
Definition listing_b : list string := ["dog.jpeg"].
Definition listing_txt : list string := ["notes.txt"; "labels"].

(** Two jobs, the first of which has answered. *)
Definition two_jobs : list Event :=
  [PostDetect upload_a id_a;
   PostDetect upload_b id_b;
   ChildClose 0%nat (Some 0);
   ChildClose 1%nat (Some 0);
   ReaddirDone 0%nat results_a (inr listing_a)].

(** Webcam: start, stop, start again, the first child closes, start. *)
Definition restart_events : list Event :=
  [GetWebcam (Some "start");
   GetWebcam (Some "stop");
   GetWebcam (Some "start");
   ChildClose 0%nat None;
   GetWebcam (Some "start")].

(** Webcam: start, the spawn fails ([error], then [close] with the
    negated errno as Node delivers them), start again. *)
Definition spawn_failure_events : list Event :=
  [GetWebcam (Some "start");
   ChildError 0%nat enoent;
   ChildClose 0%nat (Some (-2));
   GetWebcam (Some "start")].

Definition no_child : Child := mkChild EmptyString [] (WebcamProc 0%nat) false [].

(** The child [p] of the sample server after the events [es]. *)
Definition child_after (es : list Event) (p : Pid) : Child :=
  default no_child (children (after es) !! p).

(** A webcam session relaying two chunks while a detection job runs. *)
Definition streaming_events : list Event :=
  [ChildStdout 0%nat "JPEG-1";
   PostDetect upload_a id_a;
   ChildStdout 1%nat "image 1/1";
   ChildStdout 0%nat "JPEG-2";
   GetWebcam (Some "start")].

(** ** Properties *)

Section Properties.

Variable cwd : string.
Variable toString : Buffer -> string.

Ltac unfold_prims :=
  unfold res_send, res_json, res_status, res_write, res_setHeader, put_response,
    get_response, new_response, console_log, console_error, ensure_dir,
    fs_existsSync, fs_mkdirSync, fs_unlink, fs_readdir, spawn, kill, set_job,
    mark_closed, complete, modify, gets, ret, throw, bind,
    set_pythonProcess, set_image_path, set_children, set_responses, set_dirs,
    set_pending, emit in *.

Ltac unfold_handlers :=
  unfold step, handle, webcam_get, webcam_on_stdout, webcam_on_close,
    webcam_on_error, detect_post, detect_on_stdout, detect_on_stderr,
    detect_on_close, detect_on_error, unlink_callback, readdir_callback in *.

(** Runs a handler on a symbolic state: lookups that are decided are
    rewritten, the others are split on, innermost first. *)
Ltac exec :=
  repeat first
    [ rewrite lookup_insert_eq
    | rewrite lookup_alter_eq
    | rewrite lookup_empty
    | progress simpl
    | match goal with
      | |- context [fmap _ (?m !! ?k)] => destruct (m !! k) eqn:?
      end
    | match goal with
      | |- context [match ?x with _ => _ end] =>
        lazymatch x with
        | context [match _ with _ => _ end] => fail
        | _ => destruct x eqn:?
        end
      end ].

Lemma wf_init : wf init.
Proof. constructor; simpl; intros *; rewrite ?lookup_empty; done. Qed.

(** A state whose children are those of a well-formed state, up to what
    they accumulated, plus at most the child just spawned on the response
    just created, is well formed. *)
Lemma wf_intro s s' :
  wf s ->
  (forall q c', children s' !! q = Some c' ->
     (exists c, children s !! q = Some c /\
                owner_res (owner c') = owner_res (owner c))
     \/ (q = next_pid s /\ owner_res (owner c') = next_req s /\
         next_pid s' = S (next_pid s) /\ next_req s' = S (next_req s))) ->
  (next_pid s <= next_pid s')%nat -> (next_req s <= next_req s')%nat ->
  wf s'.
Proof.
  intros [W1 W2 W3] H Hp Hr. constructor.
  - intros q c' Hq. destruct (H _ _ Hq) as [(c & Hc & _) | (-> & _ & -> & _)].
    + specialize (W1 _ _ Hc). lia.
    + lia.
  - intros q c' Hq. destruct (H _ _ Hq) as [(c & Hc & ->) | (_ & -> & _ & ->)].
    + specialize (W2 _ _ Hc). lia.
    + lia.
  - intros q1 q2 c1 c2 H1 H2 Heq.
    destruct (H _ _ H1) as [(d1 & Hd1 & E1) | (-> & E1 & _)];
      destruct (H _ _ H2) as [(d2 & Hd2 & E2) | (-> & E2 & _)].
    + eapply W3; eauto. congruence.
    + specialize (W2 _ _ Hd1). lia.
    + specialize (W2 _ _ Hd2). lia.
    + done.
Qed.

Lemma step_wf e s s' :
  wf s -> step cwd toString e s = Ok s' -> wf s'.
Proof.
  intros Hwf.
  destruct e; unfold_handlers; unfold_prims; exec; intros [= <-].
  all: try done.
  all: eapply wf_intro; [exact Hwf | simpl | simpl; lia | simpl; lia].
  all: intros q c'; rewrite ?lookup_insert_Some, ?lookup_alter_Some.
  all: try (intros Hq; left; eexists; split; [exact Hq | done]).
  all: try naive_solver.
  all: intros [[-> (x & Hx & ->)] | [_ Hq]]; [| left; eauto].
  all: left; exists x; split; [done |].
  all: simplify_eq; simpl.
  all: match goal with H : owner _ = _ |- _ => rewrite H end; done.
Qed.

(** Events of other children and other requests leave a waiting job as
    it is. *)
Lemma step_frame e s s' p job :
  wf s -> awaiting s p job -> event_pid e <> Some p ->
  step cwd toString e s = Ok s' -> awaiting s' p job.
Proof.
  intros Hwf [(c & Hc & Ho) Hr] Hne.
  pose proof (wf_res _ Hwf _ _ Hc) as Hlt. rewrite Ho in Hlt. simpl in Hlt.
  assert (Hother : forall q d, children s !! q = Some d -> q <> p ->
                               owner_res (owner d) <> job_res job).
  { intros q d Hd Hqp Heq. apply Hqp. eapply (wf_inj _ Hwf); eauto.
    rewrite Ho. done. }
  destruct e; unfold_handlers; unfold_prims; exec; intros [= <-].
  all: try done.
  all: unfold awaiting; simpl.
  all: pose proof (wf_pid _ Hwf _ _ Hc) as Hpid.
  all: split;
    [ rewrite ?lookup_alter; repeat case_decide; subst;
      rewrite ?lookup_insert_ne by lia; rewrite ?Hc; simpl; eauto
    | rewrite ?lookup_insert_ne; [exact Hr | ..] ].
  all: try lia.
  all: simpl in Hne; try congruence.
  all: try match goal with
       | Hd : children _ !! ?q = Some ?d, Hod : owner ?d = _ |- _ ≠ _ =>
         intros Heq; apply (Hother q d Hd);
         [congruence | rewrite Hod; simpl; congruence]
       end.
Qed.

(** *** Strings *)

Lemma append_cons c a b : String c a +:+ b = String c (a +:+ b).
Proof. reflexivity. Qed.

Lemma append_assoc a b c : (a +:+ b) +:+ c = a +:+ (b +:+ c).
Proof. induction a as [| x a IH]; [done |]. rewrite !append_cons. by rewrite IH. Qed.

Lemma append_nil_r a : a +:+ EmptyString = a.
Proof. induction a as [| x a IH]; [done |]. rewrite append_cons. by rewrite IH. Qed.

Lemma prefix_append a b : String.prefix a (a +:+ b) = true.
Proof.
  induction a as [| x a IH]; [by destruct b |].
  rewrite append_cons. simpl. destruct (ascii_dec x x); [exact IH | done].
Qed.

(** *** What each event of a waiting job does *)

Ltac exec_job :=
  repeat first
    [ rewrite lookup_insert_eq
    | rewrite lookup_alter_eq
    | rewrite lookup_empty
    | match goal with
      | H : ?m !! ?k = Some _ |- context [?m !! ?k] => rewrite H
      | H : owner ?c = _ |- context [owner ?c] => rewrite H
      end
    | progress simpl ].

Lemma detect_post_step s req file hex :
  req_file req = Some file ->
  exists s',
    step cwd toString (PostDetect req hex) s = Ok s' /\
    awaiting s' (next_pid s) (new_job cwd s file hex) /\
    is_alive (next_pid s) s' = true /\
    pythonProcess s' = pythonProcess s /\ image_path s' = image_path s.
Proof.
  intros Hf. unfold_handlers; unfold_prims. rewrite Hf.
  destruct (bool_decide (Path.resolve cwd ["./output"; hex] ∈ dirs s)) eqn:Hd;
    simpl; rewrite Hd; simpl.
  all: eexists; split; [reflexivity |].
  all: unfold awaiting, is_alive, new_job; simpl; rewrite !lookup_insert_eq; eauto 10.
Qed.

Lemma detect_stderr_step s p job data :
  awaiting s p job ->
  exists s',
    step cwd toString (ChildStderr p data) s = Ok s' /\
    awaiting s' p (with_output job (toString data) EmptyString).
Proof.
  intros [(c & Hc & Ho) Hr]. unfold_handlers; unfold_prims. exec_job.
  eexists; split; [reflexivity |].
  unfold awaiting, with_output; simpl. rewrite lookup_alter_eq, Hc; simpl.
  rewrite append_nil_r. eauto.
Qed.

Lemma detect_stdout_step s p job data :
  awaiting s p job ->
  exists s',
    step cwd toString (ChildStdout p data) s = Ok s' /\
    awaiting s' p (with_output job EmptyString (toString data)).
Proof.
  intros [(c & Hc & Ho) Hr]. unfold_handlers; unfold_prims. exec_job.
  eexists; split; [reflexivity |].
  unfold awaiting, with_output; simpl. rewrite lookup_alter_eq, Hc; simpl.
  rewrite append_nil_r. eauto.
Qed.

Lemma detect_close_failure s p job code :
  awaiting s p job -> nonzero code = true ->
  exists s',
    step cwd toString (ChildClose p code) s = Ok s' /\
    responses s' !! job_res job =
      Some (json_response 500 (err2 "Detection failed" (errorMessage job))) /\
    trace s' = trace s ++
      [FsUnlink (imagePath job);
       ConsoleLog [LStr ("Python process finished with exit code " +:+ Js.show_code code)];
       ConsoleError [LStr "Python process error:"; LStr (errorMessage job)];
       Sent (job_res job) 500 (err2 "Detection failed" (errorMessage job))] /\
    pending s' = pending s ++ [PUnlink (imagePath job)].
Proof.
  intros [(c & Hc & Ho) Hr] Hnz. unfold_handlers; unfold_prims. exec_job.
  rewrite Hnz. exec_job.
  eexists; split; [reflexivity |]. simpl. rewrite lookup_insert_eq.
  split; [done |]. by rewrite <- !app_assoc.
Qed.

Lemma detect_close_success s p job :
  awaiting s p job ->
  exists s',
    step cwd toString (ChildClose p (Some 0)) s = Ok s' /\
    awaiting s' p job /\
    trace s' = trace s ++
      [FsUnlink (imagePath job);
       ConsoleLog [LStr "Python process finished with exit code 0"];
       FsReaddir (Path.join (outputFolder job) "results")] /\
    pending s' = pending s ++
      [PUnlink (imagePath job); PReaddir p (Path.join (outputFolder job) "results")].
Proof.
  intros [(c & Hc & Ho) Hr]. unfold_handlers; unfold_prims. exec_job.
  eexists; split; [reflexivity |]. unfold awaiting; simpl.
  rewrite lookup_alter_eq, Hc; simpl. rewrite <- !app_assoc. eauto 10.
Qed.

Lemma readdir_success_step s p job path files :
  awaiting s p job -> imageFiles files <> [] ->
  exists s',
    step cwd toString (ReaddirDone p path (inr files)) s = Ok s' /\
    responses s' !! job_res job =
      Some (json_response 200
              (success_body (Some (imageUrls (uniqueId job) (imageFiles files))))) /\
    image_path s' = Some (imageUrls (uniqueId job) (imageFiles files)) /\
    pythonProcess s' = pythonProcess s /\
    children s' = children s.
Proof.
  intros [(c & Hc & Ho) Hr] Hne. unfold_handlers; unfold_prims. exec_job.
  destruct (imageFiles files) as [| f fs] eqn:Hfs; [done |]. exec_job.
  eexists; split; [reflexivity |]. simpl. rewrite lookup_insert_eq. done.
Qed.

Lemma readdir_empty_step s p job path files :
  awaiting s p job -> imageFiles files = [] ->
  exists s',
    step cwd toString (ReaddirDone p path (inr files)) s = Ok s' /\
    responses s' !! job_res job =
      Some (json_response 500 (err1 "No images generated")) /\
    image_path s' = image_path s.
Proof.
  intros [(c & Hc & Ho) Hr] Hnil. unfold_handlers; unfold_prims. exec_job.
  rewrite Hnil. exec_job.
  eexists; split; [reflexivity |]. simpl. rewrite lookup_insert_eq. done.
Qed.

(** *** Runs *)

Lemma run_cons e es s :
  run cwd toString (e :: es) s =
    if enabled e s then
      match step cwd toString e s with
      | Ok s' => run cwd toString es s'
      | Uncaught _ => None
      end
    else None.
Proof. reflexivity. Qed.

Lemma run_cons_inv e es s s1 :
  run cwd toString (e :: es) s = Some s1 ->
  exists s', enabled e s = true /\ step cwd toString e s = Ok s' /\
             run cwd toString es s' = Some s1.
Proof.
  rewrite run_cons. destruct (enabled e s); [| done].
  destruct (step cwd toString e s) as [s' |]; [| done]. eauto.
Qed.

Lemma run_app_inv es1 es2 s s2 :
  run cwd toString (es1 ++ es2) s = Some s2 ->
  exists s1, run cwd toString es1 s = Some s1 /\ run cwd toString es2 s1 = Some s2.
Proof.
  revert s. induction es1 as [| e es1 IH]; intros s H; [eauto |].
  rewrite <- app_comm_cons in H.
  apply run_cons_inv in H as (s' & He & Hs & Hr).
  destruct (IH _ Hr) as (s1 & H1 & H2). exists s1. split; [| done].
  rewrite run_cons, He, Hs. done.
Qed.

Lemma run_wf es s s1 :
  wf s -> run cwd toString es s = Some s1 -> wf s1.
Proof.
  revert s. induction es as [| e es IH]; intros s Hwf H.
  - by injection H as <-.
  - apply run_cons_inv in H as (s' & _ & Hs & Hr). eauto using step_wf.
Qed.

Lemma reachable_wf s : reachable cwd toString s -> wf s.
Proof. intros [es H]. eapply run_wf; [apply wf_init | exact H]. Qed.

Lemma with_output_twice job a b c d :
  with_output (with_output job a b) c d = with_output job (a +:+ c) (b +:+ d).
Proof. unfold with_output; simpl. by rewrite !append_assoc. Qed.

Lemma with_output_nil job : with_output job EmptyString EmptyString = job.
Proof. destruct job. unfold with_output; simpl. by rewrite !append_nil_r. Qed.

(** While child [p] neither closes nor fails, its job goes on waiting and
    accumulates exactly the chunks [p] writes, whatever else happens. *)
Lemma run_quiet p es : forall s s1 job,
  wf s -> awaiting s p job -> quiet p es = true ->
  run cwd toString es s = Some s1 ->
  awaiting s1 p (with_output job (text_of toString (stderr_chunks p es))
                                 (text_of toString (stdout_chunks p es))).
Proof.
  induction es as [| e es IH]; intros s s1 job Hwf Haw Hq Hrun.
  - injection Hrun as <-. unfold text_of; simpl. by rewrite with_output_nil.
  - apply run_cons_inv in Hrun as (s' & _ & Hs & Hr).
    simpl in Hq. apply andb_prop in Hq as [Hq1 Hq2].
    assert (Hwf' : wf s') by eauto using step_wf.
    destruct (decide (event_pid e = Some p)) as [Hep | Hep].
    + destruct e; simpl in Hep, Hq1; simplify_eq;
        try (rewrite bool_decide_eq_true_2 in Hq1 by done; done).
      * destruct (detect_stdout_step s p job data Haw) as (s'' & Hs'' & Haw').
        rewrite Hs in Hs''. injection Hs'' as <-.
        specialize (IH _ _ _ Hwf' Haw' Hq2 Hr).
        rewrite with_output_twice in IH.
        unfold stdout_chunks, stderr_chunks in *; simpl.
        rewrite bool_decide_eq_true_2 by done. exact IH.
      * destruct (detect_stderr_step s p job data Haw) as (s'' & Hs'' & Haw').
        rewrite Hs in Hs''. injection Hs'' as <-.
        specialize (IH _ _ _ Hwf' Haw' Hq2 Hr).
        rewrite with_output_twice in IH.
        unfold stdout_chunks, stderr_chunks in *; simpl.
        rewrite bool_decide_eq_true_2 by done. exact IH.
    + assert (Haw' : awaiting s' p job) by eauto using step_frame.
      specialize (IH _ _ _ Hwf' Haw' Hq2 Hr).
      destruct e; simpl in Hep; unfold stdout_chunks, stderr_chunks in *; simpl;
        try exact IH.
      all: rewrite bool_decide_eq_false_2 by congruence; exact IH.
Qed.

(** A child stays alive until its own [close] event. *)
Lemma step_alive e s s' p :
  (forall code, e <> ChildClose p code) -> is_alive p s = true ->
  step cwd toString e s = Ok s' -> is_alive p s' = true.
Proof.
  intros Hne. unfold is_alive at 1.
  destruct (children s !! p) as [c |] eqn:Hc; [| done]. intros Ha.
  enough (step cwd toString e s = Ok s' ->
          exists c', children s' !! p = Some c' /\ alive c' = true) as Hen.
  { intros Hs. destruct (Hen Hs) as (c' & Hc' & Ha'). unfold is_alive. by rewrite Hc'. }
  destruct e; unfold_handlers; unfold_prims; exec; intros [= <-]; simpl.
  all: try (eexists; split; [exact Hc | exact Ha]).
  all: rewrite ?lookup_alter; repeat case_decide; subst.
  all: try (destruct (decide (next_pid s = p)) as [<- |];
            [rewrite lookup_insert_eq | rewrite lookup_insert_ne by done]).
  all: rewrite ?Hc; simpl; eauto.
  all: exfalso; eapply Hne; reflexivity.
Qed.

Lemma run_alive p es : forall s s1,
  quiet p es = true -> is_alive p s = true ->
  run cwd toString es s = Some s1 -> is_alive p s1 = true.
Proof.
  induction es as [| e es IH]; intros s s1 Hq Ha Hrun.
  - by injection Hrun as <-.
  - apply run_cons_inv in Hrun as (s' & _ & Hs & Hr).
    simpl in Hq. apply andb_prop in Hq as [Hq1 Hq2].
    eapply IH; [done | | exact Hr].
    eapply step_alive; [| exact Ha | exact Hs].
    intros code ->. simpl in Hq1. by rewrite bool_decide_eq_true_2 in Hq1.
Qed.

Lemma elem_of_remove_first op op' l :
  op <> op' -> op ∈ l -> op ∈ remove_first op' l.
Proof.
  intros Hne. induction l as [| x l IH]; simpl; [done |].
  rewrite elem_of_cons. intros [-> | Hin].
  - rewrite bool_decide_eq_false_2 by done. apply elem_of_cons. by left.
  - case_bool_decide; [done |]. apply elem_of_cons. right. by apply IH.
Qed.

(** A requested listing stays pending until its own callback runs. *)
Lemma step_pending e s s' p path :
  answers p e = false -> PReaddir p path ∈ pending s ->
  step cwd toString e s = Ok s' -> PReaddir p path ∈ pending s'.
Proof.
  intros Hne Hin.
  destruct e; unfold_handlers; unfold_prims; exec; intros [= <-]; simpl.
  all: try done.
  all: try (rewrite !elem_of_app; by auto).
  all: apply elem_of_remove_first; [| done].
  all: simpl in Hne; try done.
  all: intros [= -> ->]. all: by rewrite bool_decide_eq_true_2 in Hne.
Qed.

Lemma run_pending p path es : forall s s1,
  quiet p es = true -> PReaddir p path ∈ pending s ->
  run cwd toString es s = Some s1 -> PReaddir p path ∈ pending s1.
Proof.
  induction es as [| e es IH]; intros s s1 Hq Hin Hrun.
  - by injection Hrun as <-.
  - apply run_cons_inv in Hrun as (s' & _ & Hs & Hr).
    simpl in Hq. apply andb_prop in Hq as [Hq1 Hq2].
    eapply IH; [done | | exact Hr].
    eapply step_pending; [| exact Hin | exact Hs].
    by destruct (answers p e).
Qed.

(** The state in which a job started by [POST /detect] waits for its
    child to close. *)
Lemma job_running s req file hex es s1 :
  reachable cwd toString s -> req_file req = Some file ->
  run cwd toString (PostDetect req hex :: es) s = Some s1 ->
  quiet (next_pid s) es = true ->
  wf s1 /\
  is_alive (next_pid s) s1 = true /\
  awaiting s1 (next_pid s)
    (mkJob (next_req s) (Path.resolve cwd [file_path file]) hex
           (Path.resolve cwd ["./output"; hex])
           (text_of toString (stderr_chunks (next_pid s) es))
           (text_of toString (stdout_chunks (next_pid s) es))).
Proof.
  intros Hreach Hf Hrun Hq. apply reachable_wf in Hreach.
  apply run_cons_inv in Hrun as (s' & _ & Hs & Hr).
  destruct (detect_post_step s req file hex Hf) as (s'' & Hs'' & Haw & Hal & _).
  rewrite Hs in Hs''. injection Hs'' as <-.
  assert (Hwf' : wf s') by eauto using step_wf.
  split; [eauto using run_wf |]. split; [eauto using run_alive |].
  exact (run_quiet _ _ _ _ _ Hwf' Haw Hq Hr).
Qed.

(** The state in which a job whose child exited with code 0 waits for
    the listing of its result folder. *)
Lemma job_listing s req file hex es1 es2 s1 :
  reachable cwd toString s -> req_file req = Some file ->
  run cwd toString
      (PostDetect req hex :: es1 ++ ChildClose (next_pid s) (Some 0) :: es2) s
    = Some s1 ->
  quiet (next_pid s) es1 = true -> quiet (next_pid s) es2 = true ->
  exists err out,
    awaiting s1 (next_pid s)
      (mkJob (next_req s) (Path.resolve cwd [file_path file]) hex
             (Path.resolve cwd ["./output"; hex]) err out) /\
    PReaddir (next_pid s)
             (Path.join (Path.resolve cwd ["./output"; hex]) "results") ∈ pending s1.
Proof.
  intros Hreach Hf Hrun Hq1 Hq2.
  change (PostDetect req hex :: es1 ++ ChildClose (next_pid s) (Some 0) :: es2)
    with ((PostDetect req hex :: es1) ++ ChildClose (next_pid s) (Some 0) :: es2)
    in Hrun.
  apply run_app_inv in Hrun as (sa & Ha & Hrun).
  destruct (job_running _ _ _ _ _ _ Hreach Hf Ha Hq1) as (Hwfa & _ & Hawa).
  apply run_cons_inv in Hrun as (sb & _ & Hb & Hrun).
  destruct (detect_close_success _ _ _ Hawa) as (sb' & Hb' & Hawb & _ & Hpend).
  rewrite Hb in Hb'. injection Hb' as <-.
  assert (Hwfb : wf sb) by eauto using step_wf.
  pose proof (run_quiet _ _ _ _ _ Hwfb Hawb Hq2 Hrun) as Haw1.
  do 2 eexists. split; [exact Haw1 |].
  eapply run_pending; [exact Hq2 | | exact Hrun].
  rewrite Hpend. simpl. rewrite !elem_of_app, !elem_of_cons. eauto.
Qed.

(** *** Detection jobs *)

(** C5: a detection job whose child exits with a non-zero code answers
    500 with [{error: "Detection failed", details: d}], where [d] is the
    concatenation, in arrival order, of the stderr chunks of that child
    (each rendered by [toString]); chunks of other children, stdout
    chunks and other requests interleaved with them do not enter [d]. *)
Theorem detect_failure_details s req file hex es s1 code :
  reachable cwd toString s ->
  req_file req = Some file ->
  run cwd toString (PostDetect req hex :: es) s = Some s1 ->
  quiet (next_pid s) es = true ->
  nonzero code = true ->
  exists s2,
    enabled (ChildClose (next_pid s) code) s1 = true /\
    step cwd toString (ChildClose (next_pid s) code) s1 = Ok s2 /\
    responses s2 !! next_req s =
      Some (json_response 500
              (JObj [("error", JStr "Detection failed");
                     ("details",
                      JStr (Js.concat
                              (map toString (stderr_chunks (next_pid s) es))))])).
Proof.
  intros Hreach Hf Hrun Hq Hnz.
  destruct (job_running _ _ _ _ _ _ Hreach Hf Hrun Hq) as (_ & Hal & Haw).
  destruct (detect_close_failure _ _ _ code Haw Hnz) as (s2 & Hs2 & Hresp & _).
  exists s2. split; [exact Hal |]. split; [exact Hs2 |]. exact Hresp.
Qed.

Lemma imageFiles_sublist files : sublist (imageFiles files) files.
Proof.
  induction files as [| f files IH]; simpl; [constructor |].
  destruct (is_image f); by constructor.
Qed.

(** C3, amended: a detection job whose child exits with code 0 and whose
    result folder lists exactly [k >= 1] files with a recognized
    extension answers 200 with [{status: 200, image: urls}], where
    [urls] has exactly [k] entries, one per surviving file and in the
    order of the listing, each being
    [http://localhost:3002/output/{job id}/results/{file}]. *)
Theorem detect_success_urls s req file hex es1 es2 s1 path files k :
  reachable cwd toString s ->
  req_file req = Some file ->
  run cwd toString
      (PostDetect req hex :: es1 ++ ChildClose (next_pid s) (Some 0) :: es2) s
    = Some s1 ->
  quiet (next_pid s) es1 = true -> quiet (next_pid s) es2 = true ->
  length (imageFiles files) = k -> (1 <= k)%nat ->
  exists s2 urls,
    step cwd toString (ReaddirDone (next_pid s) path (inr files)) s1 = Ok s2 /\
    responses s2 !! next_req s =
      Some (json_response 200
              (JObj [("status", JNum 200); ("image", JArr (map JStr urls))])) /\
    length urls = k /\
    urls = map (fun f => "http://localhost:3002/output/" +:+ hex +:+ "/results/" +:+ f)
               (imageFiles files) /\
    sublist (imageFiles files) files.
Proof.
  intros Hreach Hf Hrun Hq1 Hq2 Hk Hpos.
  destruct (job_listing _ _ _ _ _ _ _ Hreach Hf Hrun Hq1 Hq2) as (err & out & Haw & _).
  assert (Hne : imageFiles files <> []).
  { intros Hnil. rewrite Hnil in Hk. simpl in Hk. lia. }
  destruct (readdir_success_step _ _ _ path files Haw Hne) as (s2 & Hs2 & Hresp & _).
  exists s2, (imageUrls hex (imageFiles files)).
  split; [exact Hs2 |]. split; [exact Hresp |].
  split; [unfold imageUrls; by rewrite length_map |].
  split; [reflexivity | apply imageFiles_sublist].
Qed.

(** *** Case-insensitive comparison *)

Lemma in_all_ascii a : In a Js.all_ascii.
Proof.
  rewrite <- (ascii_nat_embedding a). apply in_map. apply in_seq.
  pose proof (nat_ascii_bounded a). lia.
Qed.

Lemma lower_upper_table :
  forallb (fun a =>
    forallb (fun b =>
      implb (Ascii.eqb (Js.lower_ascii b) b)
            (Bool.eqb (Ascii.eqb (Js.lower_ascii a) b)
                      (Ascii.eqb (Js.upper_ascii a) (Js.upper_ascii b))))
      Js.all_ascii) Js.all_ascii = true.
Proof. vm_compute. reflexivity. Qed.

Lemma lower_upper a b :
  Js.lower_ascii b = b ->
  Ascii.eqb (Js.lower_ascii a) b = Ascii.eqb (Js.upper_ascii a) (Js.upper_ascii b).
Proof.
  intros Hb. pose proof lower_upper_table as H.
  rewrite forallb_forall in H. specialize (H a (in_all_ascii a)).
  rewrite forallb_forall in H. specialize (H b (in_all_ascii b)).
  rewrite Hb, Ascii.eqb_refl in H. simpl in H. by apply eqb_prop in H.
Qed.

Lemma lower_eqb_ci x : forall e,
  Js.toLowerCase e = e -> String.eqb (Js.toLowerCase x) e = Js.ci_eqb x e.
Proof.
  induction x as [| c x IH]; intros [| d e] He; simpl; try done.
  simpl in He. injection He as Hd He.
  by rewrite (lower_upper c d Hd), (IH e He).
Qed.

Lemma is_image_ci file :
  is_image file = existsb (Js.ci_eqb (Path.extname file)) image_extensions.
Proof.
  unfold is_image, Js.includes, image_extensions. simpl.
  by rewrite !lower_eqb_ci.
Qed.

(** C6: the filter keeps exactly the entries whose [path.extname],
    compared without regard to case, is one of [.jpg], [.jpeg], [.png],
    [.bmp], in the order of the listing; and a job whose child exited
    with code 0 and whose listing has no such entry answers 500 with
    [{error: "No images generated"}]. *)
Theorem result_filter_no_images s req file hex es1 es2 s1 path files :
  reachable cwd toString s ->
  req_file req = Some file ->
  run cwd toString
      (PostDetect req hex :: es1 ++ ChildClose (next_pid s) (Some 0) :: es2) s
    = Some s1 ->
  quiet (next_pid s) es1 = true -> quiet (next_pid s) es2 = true ->
  imageFiles files = [] ->
  (forall listing f,
     In f (imageFiles listing) <->
     In f listing /\
     exists e, In e [".jpg"; ".jpeg"; ".png"; ".bmp"] /\
               Js.ci_eqb (Path.extname f) e = true) /\
  (forall listing, sublist (imageFiles listing) listing) /\
  exists s2,
    enabled (ReaddirDone (next_pid s)
               (Path.join (Path.resolve cwd ["./output"; hex]) "results")
               (inr files)) s1 = true /\
    step cwd toString (ReaddirDone (next_pid s) path (inr files)) s1 = Ok s2 /\
    responses s2 !! next_req s =
      Some (json_response 500 (JObj [("error", JStr "No images generated")])).
Proof.
  intros Hreach Hf Hrun Hq1 Hq2 Hnil. split; [| split].
  - intros listing f. unfold imageFiles. rewrite filter_In, is_image_ci.
    rewrite existsb_exists. reflexivity.
  - apply imageFiles_sublist.
  - destruct (job_listing _ _ _ _ _ _ _ Hreach Hf Hrun Hq1 Hq2)
      as (err & out & Haw & Hpend).
    destruct (readdir_empty_step _ _ _ path files Haw Hnil) as (s2 & Hs2 & Hresp & _).
    exists s2. split; [| split; [exact Hs2 | exact Hresp]].
    simpl. by apply bool_decide_eq_true_2.
Qed.

(** What the callback of [fs.unlink] does, whatever the outcome. *)
Lemma unlink_callback_step s path err :
  exists s',
    step cwd toString (UnlinkDone path err) s = Ok s' /\
    responses s' = responses s /\ children s' = children s /\
    pythonProcess s' = pythonProcess s /\ image_path s' = image_path s /\
    trace s' = trace s ++
      match err with
      | Some e => [ConsoleError [LStr "Failed to delete uploaded file:"; LError e]]
      | None => []
      end.
Proof.
  unfold_handlers; unfold_prims. destruct err; simpl; eexists; split; try reflexivity.
  all: simpl; by rewrite ?app_nil_r.
Qed.

(** C9: when the child of a detection job closes, with whatever exit
    code, the first thing the handler does is to ask for the deletion of
    the uploaded file; the answer (non-zero code) or the listing of the
    result folder (code 0) is issued in the same turn, without waiting
    for the deletion; and the callback of the deletion, on failure, only
    writes to the console: it changes no response and no other state. *)
Theorem unlink_attempted_and_only_logged s req file hex es s1 code :
  reachable cwd toString s ->
  req_file req = Some file ->
  run cwd toString (PostDetect req hex :: es) s = Some s1 ->
  quiet (next_pid s) es = true ->
  (exists s2 rest,
     step cwd toString (ChildClose (next_pid s) code) s1 = Ok s2 /\
     trace s2 = trace s1 ++ FsUnlink (Path.resolve cwd [file_path file]) :: rest /\
     PUnlink (Path.resolve cwd [file_path file]) ∈ pending s2 /\
     (forall p', FsUnlink p' ∉ rest) /\
     if nonzero code
     then exists details,
            last rest = Some (Sent (next_req s) 500 (err2 "Detection failed" details)) /\
            responses s2 !! next_req s =
              Some (json_response 500 (err2 "Detection failed" details))
     else last rest =
            Some (FsReaddir (Path.join (Path.resolve cwd ["./output"; hex]) "results")) /\
          responses s2 !! next_req s = Some fresh_response) /\
  (forall st path err,
     exists st',
       step cwd toString (UnlinkDone path err) st = Ok st' /\
       responses st' = responses st /\ children st' = children st /\
       pythonProcess st' = pythonProcess st /\ image_path st' = image_path st /\
       trace st' = trace st ++
         match err with
         | Some e => [ConsoleError [LStr "Failed to delete uploaded file:"; LError e]]
         | None => []
         end).
Proof.
  intros Hreach Hf Hrun Hq. split; [| apply unlink_callback_step].
  destruct (job_running _ _ _ _ _ _ Hreach Hf Hrun Hq) as (_ & _ & Haw).
  destruct (nonzero code) eqn:Hnz.
  - destruct (detect_close_failure _ _ _ code Haw Hnz)
      as (s2 & Hs2 & Hresp & Htr & Hpend).
    simpl in *. exists s2. eexists. split; [exact Hs2 |]. split; [exact Htr |].
    split; [| split].
    + rewrite Hpend. rewrite elem_of_app, !elem_of_cons. auto.
    + intros p'. rewrite !elem_of_cons, elem_of_nil. naive_solver.
    + eexists. split; [reflexivity | exact Hresp].
  - destruct code as [[] |]; try done.
    destruct (detect_close_success _ _ _ Haw) as (s2 & Hs2 & Haw2 & Htr & Hpend).
    simpl in *. exists s2. eexists. split; [exact Hs2 |]. split; [exact Htr |].
    split; [| split; [| split]].
    + rewrite Hpend. rewrite elem_of_app, !elem_of_cons. auto.
    + intros p'. rewrite !elem_of_cons, elem_of_nil. naive_solver.
    + reflexivity.
    + apply Haw2.
Qed.

(** C10: every URL of a successful detection response begins with the
    literal [http://localhost:3002/output/], and nothing the route does
    depends on the [Host] header of the request. *)
Theorem urls_absolute_and_fixed s req file hex es1 es2 s1 path files :
  reachable cwd toString s ->
  req_file req = Some file ->
  run cwd toString
      (PostDetect req hex :: es1 ++ ChildClose (next_pid s) (Some 0) :: es2) s
    = Some s1 ->
  quiet (next_pid s) es1 = true -> quiet (next_pid s) es2 = true ->
  imageFiles files <> [] ->
  (exists s2 urls,
     step cwd toString (ReaddirDone (next_pid s) path (inr files)) s1 = Ok s2 /\
     responses s2 !! next_req s =
       Some (json_response 200
               (JObj [("status", JNum 200); ("image", JArr (map JStr urls))])) /\
     Forall (fun u => String.prefix "http://localhost:3002/output/" u = true) urls) /\
  (forall host st,
     step cwd toString (PostDetect (mkDetectReq (req_file req) host) hex) st =
     step cwd toString (PostDetect req hex) st).
Proof.
  intros Hreach Hf Hrun Hq1 Hq2 Hne. split; [| reflexivity].
  destruct (job_listing _ _ _ _ _ _ _ Hreach Hf Hrun Hq1 Hq2) as (err & out & Haw & _).
  destruct (readdir_success_step _ _ _ path files Haw Hne) as (s2 & Hs2 & Hresp & _).
  exists s2, (imageUrls hex (imageFiles files)).
  split; [exact Hs2 |]. split; [exact Hresp |].
  unfold imageUrls. apply Forall_map, Forall_forall. intros f _.
  apply prefix_append.
Qed.

(** C2, amended: detection jobs do share one variable besides the file
    system, the module-level [image_path], which every successful job
    overwrites and reads back.  The write and the read happen in the
    same turn, so the success response of a job is the one determined by
    its own listing and job id, whatever an earlier job left in
    [image_path]; and no event of a job touches [pythonProcess]. *)
Theorem job_response_own_listing s p job path files :
  awaiting s p job ->
  imageFiles files <> [] ->
  exists s',
    step cwd toString (ReaddirDone p path (inr files)) s = Ok s' /\
    responses s' !! job_res job =
      Some (json_response 200
              (JObj [("status", JNum 200);
                     ("image",
                      JArr (map JStr
                              (map (fun f => "http://localhost:3002/output/"
                                             +:+ uniqueId job +:+ "/results/" +:+ f)
                                   (imageFiles files))))])) /\
    image_path s' =
      Some (map (fun f => "http://localhost:3002/output/"
                          +:+ uniqueId job +:+ "/results/" +:+ f)
                (imageFiles files)) /\
    pythonProcess s' = pythonProcess s.
Proof.
  intros Haw Hne.
  destruct (readdir_success_step _ _ _ path files Haw Hne)
    as (s' & Hs' & Hresp & Hip & Hpp & _).
  exists s'. done.
Qed.

(** *** The webcam session *)

Lemma start_running_step s p :
  pythonProcess s = Some p ->
  step cwd toString (GetWebcam (Some "start")) s =
    Ok (mkState (Some p) (image_path s) (children s)
          (<[next_req s :=
               json_response 400 (err1 "Webcam detection is already running.")]>
             (responses s))
          (dirs s) (pending s)
          (trace s ++ [Sent (next_req s) 400
                            (err1 "Webcam detection is already running.")])
          (next_pid s) (S (next_req s))).
Proof.
  intros H. unfold_handlers; unfold_prims. simpl. rewrite H. exec.
  by rewrite !insert_insert_eq.
Qed.

Lemma start_idle_step s :
  pythonProcess s = None ->
  exists s',
    step cwd toString (GetWebcam (Some "start")) s = Ok s' /\
    pythonProcess s' = Some (next_pid s) /\
    children s' =
      <[next_pid s := mkChild "python3" (webcam_argv cwd) (WebcamProc (next_req s)) true []]>
        (children s) /\
    responses s' =
      <[next_req s :=
          mkResponse 200
            {["Content-Type" := "multipart/x-mixed-replace; boundary=frame"]}
            false [] false]> (responses s) /\
    (exists mk, trace s' = trace s ++ mk ++
       [Spawned (next_pid s) "python3" (webcam_argv cwd);
        ConsoleLog [LStr "Webcam detection started..."]] /\
       (mk = [] \/ mk = [MkdirSync (Path.resolve cwd ["./output"])])).
Proof.
  intros H. unfold_handlers; unfold_prims. simpl. rewrite H. simpl.
  destruct (bool_decide (Path.resolve cwd ["./output"] ∈ dirs s)); exec.
  all: eexists; split; [reflexivity |]; simpl.
  all: rewrite !insert_insert_eq; repeat (split; [done |]).
  - exists []. rewrite <- !app_assoc. auto.
  - exists [MkdirSync (Path.resolve cwd ["./output"])]. rewrite <- !app_assoc. auto.
Qed.

Lemma stop_running_step s p :
  pythonProcess s = Some p ->
  step cwd toString (GetWebcam (Some "stop")) s =
    Ok (mkState None (image_path s)
          (alter (fun c => mkChild (command c) (argv c) (owner c) (alive c)
                                   (signals c ++ ["SIGTERM"])) p (children s))
          (<[next_req s :=
               json_response 200 (JObj [("message", JStr "Webcam detection stopped.")])]>
             (responses s))
          (dirs s) (pending s)
          (trace s ++ [Killed p "SIGTERM";
                       ConsoleLog [LStr "Webcam detection stopped."];
                       Sent (next_req s) 200
                            (JObj [("message", JStr "Webcam detection stopped.")])])
          (next_pid s) (S (next_req s))).
Proof.
  intros H. unfold_handlers; unfold_prims. simpl. rewrite H. exec.
  by rewrite !insert_insert_eq, <- !app_assoc.
Qed.

Lemma stop_idle_step s :
  pythonProcess s = None ->
  step cwd toString (GetWebcam (Some "stop")) s =
    Ok (mkState None (image_path s) (children s)
          (<[next_req s :=
               json_response 400 (err1 "No webcam detection process is running.")]>
             (responses s))
          (dirs s) (pending s)
          (trace s ++ [Sent (next_req s) 400
                            (err1 "No webcam detection process is running.")])
          (next_pid s) (S (next_req s))).
Proof.
  intros H. unfold_handlers; unfold_prims. simpl. rewrite H. exec.
  by rewrite !insert_insert_eq.
Qed.

(** C7: a start request received while the handle is set is answered
    400 with [{error: "Webcam detection is already running."}] and
    changes nothing else: the handle, the children (so no signal and no
    spawn) and every other response, among them the stream of the
    running session, are as before. *)
Theorem start_while_running_rejected s p :
  reachable cwd toString s ->
  pythonProcess s = Some p ->
  exists s',
    step cwd toString (GetWebcam (Some "start")) s = Ok s' /\
    responses s' !! next_req s =
      Some (json_response 400
              (JObj [("error", JStr "Webcam detection is already running.")])) /\
    pythonProcess s' = Some p /\
    children s' = children s /\
    (forall r, r <> next_req s -> responses s' !! r = responses s !! r) /\
    (forall c stream, children s !! p = Some c -> owner c = WebcamProc stream ->
                      responses s' !! stream = responses s !! stream) /\
    image_path s' = image_path s /\ pending s' = pending s /\
    trace s' = trace s ++
      [Sent (next_req s) 400
            (JObj [("error", JStr "Webcam detection is already running.")])].
Proof.
  intros Hreach Hp. apply reachable_wf in Hreach.
  eexists. split; [apply (start_running_step s p Hp) |]. simpl.
  rewrite lookup_insert_eq. repeat (split; [done |]).
  split; [intros r Hr; by rewrite lookup_insert_ne |].
  split; [| done].
  intros c stream Hc Ho. pose proof (wf_res _ Hreach _ _ Hc) as Hlt.
  rewrite Ho in Hlt. simpl in Hlt. rewrite lookup_insert_ne by lia. done.
Qed.

(** C8: a stop request succeeds exactly when the handle is set.  With a
    handle: SIGTERM is sent to that child, the handle is cleared, the
    answer is 200 [{message: "Webcam detection stopped."}], and a start
    request that follows is accepted (a new child is spawned and its
    stream opened).  Without a handle: the answer is 400
    [{error: "No webcam detection process is running."}] and nothing is
    signalled. *)
Theorem stop_request s :
  exists s',
    step cwd toString (GetWebcam (Some "stop")) s = Ok s' /\
    match pythonProcess s with
    | Some p =>
      responses s' !! next_req s =
        Some (json_response 200 (JObj [("message", JStr "Webcam detection stopped.")])) /\
      trace s' = trace s ++
        [Killed p "SIGTERM";
         ConsoleLog [LStr "Webcam detection stopped."];
         Sent (next_req s) 200 (JObj [("message", JStr "Webcam detection stopped.")])] /\
      (forall c, children s !! p = Some c ->
         signals <$> (children s' !! p) = Some (signals c ++ ["SIGTERM"])) /\
      pythonProcess s' = None /\
      exists s'',
        step cwd toString (GetWebcam (Some "start")) s' = Ok s'' /\
        pythonProcess s'' = Some (next_pid s') /\
        is_alive (next_pid s') s'' = true /\
        responses s'' !! next_req s' =
          Some (mkResponse 200
                  {["Content-Type" := "multipart/x-mixed-replace; boundary=frame"]}
                  false [] false)
    | None =>
      responses s' !! next_req s =
        Some (json_response 400
                (JObj [("error", JStr "No webcam detection process is running.")])) /\
      trace s' = trace s ++
        [Sent (next_req s) 400
              (JObj [("error", JStr "No webcam detection process is running.")])] /\
      children s' = children s /\
      pythonProcess s' = None
    end.
Proof.
  destruct (pythonProcess s) as [p |] eqn:Hp.
  - eexists. split; [apply (stop_running_step s p Hp) |]. simpl.
    rewrite lookup_insert_eq. repeat (split; [done |]).
    split; [intros c Hc; by rewrite lookup_alter_eq, Hc |].
    split; [done |].
    match goal with |- context [step _ _ _ ?st] => set (s' := st) end.
    destruct (start_idle_step s' eq_refl) as (s'' & Hs'' & Hpp & Hch & Hre & _).
    exists s''. split; [exact Hs'' |]. split; [exact Hpp |].
    unfold is_alive. rewrite Hch, Hre, !lookup_insert_eq. done.
  - eexists. split; [apply (stop_idle_step s Hp) |]. simpl.
    rewrite lookup_insert_eq. done.
Qed.

(** *** Further properties of the transition system *)

(** No event removes a child or changes its command line, the kind of its
    owner or the response object it answers on. *)
Lemma step_child e s s' p c :
  wf s -> children s !! p = Some c ->
  step cwd toString e s = Ok s' ->
  exists c',
    children s' !! p = Some c' /\
    command c' = command c /\ argv c' = argv c /\
    owner_res (owner c') = owner_res (owner c) /\
    is_webcam c' = is_webcam c.
Proof.
  intros Hwf Hc. pose proof (wf_pid _ Hwf _ _ Hc) as Hpid.
  destruct e; unfold_handlers; unfold_prims; exec; intros [= <-]; simpl.
  all: try (exists c; done).
  all: rewrite ?lookup_alter; repeat case_decide; subst.
  all: rewrite ?lookup_insert_ne by lia.
  all: rewrite ?Hc; simpl; try (eexists; split; [reflexivity | done]).
  all: simplify_eq.
  all: eexists; split; [reflexivity |]; simpl; unfold is_webcam; simpl.
  all: match goal with H : owner _ = _ |- _ => rewrite H end; done.
Qed.

(** Events of other children and of requests leave the closure of child
    [p] and the response object it answers on as they are. *)
Lemma step_isolated e s s' p c :
  wf s -> children s !! p = Some c -> event_pid e <> Some p ->
  step cwd toString e s = Ok s' ->
  (exists c', children s' !! p = Some c' /\ owner c' = owner c /\ alive c' = alive c) /\
  responses s' !! owner_res (owner c) = responses s !! owner_res (owner c).
Proof.
  intros Hwf Hc Hne.
  pose proof (wf_res _ Hwf _ _ Hc) as Hlt.
  pose proof (wf_pid _ Hwf _ _ Hc) as Hpid.
  assert (Hother : forall q d, children s !! q = Some d -> q <> p ->
                               owner_res (owner d) <> owner_res (owner c)).
  { intros q d Hd Hqp Heq. apply Hqp. eapply (wf_inj _ Hwf); eauto. }
  destruct e; unfold_handlers; unfold_prims; exec; intros [= <-]; simpl.
  all: simpl in Hne.
  all: split;
    [ rewrite ?lookup_alter; repeat case_decide; subst;
      rewrite ?lookup_insert_ne by lia; rewrite ?Hc; simpl; eauto
    | rewrite ?lookup_insert_ne; [reflexivity | ..] ].
  all: try lia.
  all: try congruence.
  all: try match goal with
       | Hd : children _ !! ?q = Some ?d, Hod : owner ?d = _ |- _ ≠ _ =>
         intros Heq; apply (Hother q d Hd);
         [congruence | rewrite Hod; simpl; congruence]
       end.
Qed.

(** What one event does to a child that exists: its kind stays, it stops
    being alive only on its own [close], and it is signalled only by a
    stop request while the handle refers to it. *)
Lemma step_view e s s' q c :
  wf s -> children s !! q = Some c ->
  step cwd toString e s = Ok s' ->
  exists c',
    children s' !! q = Some c' /\
    is_webcam c' = is_webcam c /\
    (alive c' = alive c \/ (exists code, e = ChildClose q code) /\ alive c' = false) /\
    (signals c' = signals c \/
     e = GetWebcam (Some "stop") /\ pythonProcess s = Some q /\
     signals c' = signals c ++ ["SIGTERM"]).
Proof.
  intros Hwf Hc. pose proof (wf_pid _ Hwf _ _ Hc) as Hpid.
  destruct e; unfold_handlers; unfold_prims; exec; intros [= <-]; simpl.
  all: try (exists c; split; [done |]; split; [done |]; split; by left).
  all: rewrite ?lookup_alter; repeat case_decide; subst.
  all: rewrite ?lookup_insert_ne by lia.
  all: rewrite ?Hc; simpl.
  all: try (exists c; split; [done |]; split; [done |]; split; by left).
  all: simplify_eq.
  all: eexists; split; [reflexivity |]; simpl; unfold is_webcam; simpl.
  all: split; [by repeat match goal with H : owner _ = _ |- _ => rewrite H end |].
  all: split; first [by left | right; by eauto].
Qed.

(** A child that appears was spawned by this very event: it is alive and
    unsignalled, and it is a webcam child only when the handle now
    refers to it. *)
Lemma step_new e s s' q c' :
  children s !! q = None -> children s' !! q = Some c' ->
  step cwd toString e s = Ok s' ->
  alive c' = true /\ signals c' = [] /\
  (is_webcam c' = true -> pythonProcess s' = Some q).
Proof.
  intros Hq Hq'. revert Hq'.
  destruct e; unfold_handlers; unfold_prims; exec; intros Hq' [= <-]; simpl in *.
  all: try congruence.
  all: rewrite ?lookup_alter_Some, ?lookup_insert_Some in Hq'.
  all: destruct_or?; destruct_and?; simplify_eq; try done.
  all: repeat match goal with H : ex _ |- _ => destruct H end.
  all: destruct_and?; congruence.
Qed.

(** The handle is set only by a start request on an idle server, and
    survives every event but a stop request and the [close] of a webcam
    child. *)
Lemma step_handle e s s' p :
  pythonProcess s' = Some p ->
  step cwd toString e s = Ok s' ->
  (pythonProcess s = Some p /\
   e <> GetWebcam (Some "stop") /\
   (forall q code c, e = ChildClose q code -> children s !! q = Some c ->
                     is_webcam c = false))
  \/ (pythonProcess s = None /\ p = next_pid s /\
      exists c', children s' !! p = Some c' /\ is_webcam c' = true /\
                 alive c' = true /\ signals c' = []).
Proof.
  intros Hp. revert Hp.
  destruct e; unfold_handlers; unfold_prims; exec; intros Hp [= <-]; simpl in *.
  all: try congruence.
  all: try (right; split; [done |]; split; [congruence |];
            simplify_eq; rewrite lookup_insert_eq; eauto 10).
  all: left; split; [congruence |]; split; [try congruence |].
  all: try (intros ? ? ? ?; congruence).
  all: try (intros [= ->]; by rewrite ?bool_decide_eq_true_2 in * ).
  all: try (apply bool_decide_eq_true in Heqb; subst; done).
  all: intros q code0 c0 [= <- <-] Hc0; simplify_eq.
  all: unfold is_webcam.
  all: by repeat match goal with H : owner _ = _ |- _ => rewrite H end.
Qed.

Lemma step_handle_ok e s s' :
  wf s -> handle_ok s -> step cwd toString e s = Ok s' -> handle_ok s'.
Proof.
  intros Hwf [H1 H2 H3] Hs. constructor.
  - intros p Hp.
    destruct (step_handle _ _ _ _ Hp Hs) as [(Hold & Hstop & Hclose) | (_ & _ & Hnew)];
      [| exact Hnew].
    destruct (H1 p Hold) as (c & Hc & Hw & Ha & Hsig).
    destruct (step_view _ _ _ _ _ Hwf Hc Hs) as (c' & Hc' & Hw' & Ha' & Hsig').
    exists c'. split; [done |]. split; [congruence |]. split.
    + destruct Ha' as [-> | [[code ->] _]]; [done |].
      specialize (Hclose _ _ _ eq_refl Hc). congruence.
    + destruct Hsig' as [-> | [-> _]]; done.
  - intros q c' Hc' Hw'.
    destruct (children s !! q) as [c |] eqn:Hc.
    + destruct (step_view _ _ _ _ _ Hwf Hc Hs) as (c'' & Hc'' & Hw'' & _ & Hsig').
      simplify_eq.
      destruct Hsig' as [-> | (_ & Hh & _)]; [apply (H2 q c Hc); congruence |].
      destruct (H1 q Hh) as (d & Hd & Hdw & _). simplify_eq. congruence.
    + by destruct (step_new _ _ _ _ _ Hc Hc' Hs) as (_ & ? & _).
  - intros q c' Hc'.
    destruct (children s !! q) as [c |] eqn:Hc.
    + destruct (step_view _ _ _ _ _ Hwf Hc Hs) as (c'' & Hc'' & _ & _ & Hsig').
      simplify_eq.
      destruct Hsig' as [-> | (_ & Hh & ->)]; [by apply (H3 q c) |].
      destruct (H1 q Hh) as (d & Hd & _ & _ & Hds). simplify_eq.
      rewrite Hds. by right.
    + left. by destruct (step_new _ _ _ _ _ Hc Hc' Hs) as (_ & ? & _).
Qed.

Lemma handle_ok_init : handle_ok init.
Proof. constructor; simpl; intros *; rewrite ?lookup_empty; done. Qed.

Lemma run_handle_ok es : forall s s1,
  wf s -> handle_ok s -> run cwd toString es s = Some s1 -> handle_ok s1.
Proof.
  induction es as [| e es IH]; intros s s1 Hwf Hok Hrun.
  - by injection Hrun as <-.
  - apply run_cons_inv in Hrun as (s' & _ & Hs & Hr).
    eapply IH; [| | exact Hr]; eauto using step_wf, step_handle_ok.
Qed.

(** A webcam child with an open stream. *)
Lemma webcam_stdout_step s p c r x data :
  children s !! p = Some c -> owner c = WebcamProc r ->
  responses s !! r = Some x -> finished x = false ->
  exists s',
    step cwd toString (ChildStdout p data) s = Ok s' /\
    children s' = children s /\
    responses s' !! r =
      Some (mkResponse (statusCode x) (headers x) true (body x ++ mjpeg_frame data) false).
Proof.
  intros Hc Ho Hr Hf. unfold_handlers; unfold_prims. exec_job.
  rewrite Hf. exec_job.
  eexists. split; [reflexivity |]. simpl. rewrite lookup_insert_eq.
  split; [done |]. by rewrite <- !app_assoc.
Qed.

(** The other events of a webcam child, [error] apart, write nothing on
    its stream. *)
Lemma webcam_silent_step e s s' p c r :
  children s !! p = Some c -> owner c = WebcamProc r ->
  event_pid e = Some p ->
  (forall data, e <> ChildStdout p data) -> (forall err, e <> ChildError p err) ->
  step cwd toString e s = Ok s' ->
  (exists c', children s' !! p = Some c' /\ owner c' = WebcamProc r) /\
  responses s' !! r = responses s !! r.
Proof.
  intros Hc Ho He Hout Herr.
  destruct e; simpl in He; simplify_eq.
  - by destruct (Hout data).
  - unfold_handlers; unfold_prims. exec_job. intros [= <-]. eauto.
  - unfold_handlers; unfold_prims. exec_job. intros [= <-]. simpl.
    rewrite lookup_alter_eq, Hc. simpl. eauto.
  - by destruct (Herr err).
  - unfold_handlers; unfold_prims. exec_job. intros [= <-]. eauto.
Qed.

Lemma run_stream p r es : forall s s1 c x,
  wf s -> children s !! p = Some c -> owner c = WebcamProc r ->
  responses s !! r = Some x -> finished x = false ->
  no_error p es = true ->
  run cwd toString es s = Some s1 ->
  responses s1 !! r =
    Some (mkResponse (statusCode x) (headers x)
            (headersSent x || negb (bool_decide (stdout_chunks p es = [])))
            (body x ++ concat (map mjpeg_frame (stdout_chunks p es))) false).
Proof.
  induction es as [| e es IH]; intros s s1 c x Hwf Hc Ho Hr Hf Hne Hrun.
  - injection Hrun as <-. unfold stdout_chunks; simpl.
    rewrite app_nil_r, orb_false_r, Hr. destruct x; simpl in *. by subst.
  - apply (run_cons_inv) in Hrun as (s' & _ & Hs & Hrun).
    simpl in Hne. apply andb_prop in Hne as [Hne1 Hne2].
    assert (Hwf' : wf s') by (eapply step_wf; eauto).
    destruct (decide (event_pid e = Some p)) as [Hep | Hep].
    + assert (Hsilent :
        (forall data, e <> ChildStdout p data) ->
        responses s1 !! r =
          Some (mkResponse (statusCode x) (headers x)
                  (headersSent x || negb (bool_decide (stdout_chunks p es = [])))
                  (body x ++ concat (map mjpeg_frame (stdout_chunks p es))) false)).
      { intros Hno.
        destruct (webcam_silent_step e s s' p c r Hc Ho Hep Hno) as [(c' & Hc' & Ho') Hr'];
          [| exact Hs |].
        { intros err ->. simpl in Hne1. by rewrite bool_decide_eq_true_2 in Hne1. }
        rewrite Hr in Hr'. exact (IH _ _ _ _ Hwf' Hc' Ho' Hr' Hf Hne2 Hrun). }
      destruct e; simpl in Hep; simplify_eq; unfold stdout_chunks in *; simpl;
        try (apply Hsilent; by intros).
      clear Hsilent.
      destruct (webcam_stdout_step s p c r x data Hc Ho Hr Hf)
        as (s'' & Hs'' & Hch & Hr').
      rewrite Hs in Hs''. injection Hs'' as <-.
      rewrite <- Hch in Hc.
      rewrite (IH _ _ _ _ Hwf' Hc Ho Hr' eq_refl Hne2 Hrun). simpl.
      rewrite (bool_decide_eq_true_2 (p = p)) by done. simpl.
      rewrite orb_true_r. by rewrite <- !app_assoc.
    + destruct (step_isolated e s s' p c Hwf Hc Hep Hs)
        as [(c' & Hc' & Ho' & _) Hr'].
      rewrite Ho in Hr', Ho'. simpl in Hr'. rewrite Hr in Hr'.
      rewrite (IH _ _ _ _ Hwf' Hc' Ho' Hr' Hf Hne2 Hrun).
      destruct e; simpl in Hep; unfold stdout_chunks; simpl; try done.
      by rewrite (bool_decide_eq_false_2 (pid = p)) by congruence.
Qed.

(** *** The webcam session, continued *)

(** Every stdout chunk of the webcam child becomes one multipart section
    on the response of the start request, in arrival order and with its
    bytes unchanged; nothing else is written on that response as long as
    the child emits no [error]. *)
Theorem webcam_stream_frames s es s1 :
  reachable cwd toString s ->
  pythonProcess s = None ->
  run cwd toString (GetWebcam (Some "start") :: es) s = Some s1 ->
  no_error (next_pid s) es = true ->
  responses s1 !! next_req s =
    Some (stream_response (stdout_chunks (next_pid s) es)).
Proof.
  intros Hreach Hidle Hrun Hne. apply (reachable_wf) in Hreach.
  apply (run_cons_inv) in Hrun as (s' & _ & Hs & Hrun).
  destruct (start_idle_step s Hidle) as (s'' & Hs'' & _ & Hch & Hre & _).
  rewrite Hs in Hs''. injection Hs'' as <-.
  assert (Hwf' : wf s') by (eapply step_wf; eauto).
  erewrite (run_stream (next_pid s) (next_req s) es s' s1);
    [| done | by rewrite Hch, lookup_insert_eq | done
     | by rewrite Hre, lookup_insert_eq | done | done | done].
  reflexivity.
Qed.

Lemma webcam_close_step s p c code :
  children s !! p = Some c -> is_webcam c = true ->
  step cwd toString (ChildClose p code) s =
    Ok (mkState None (image_path s)
          (alter (fun c => mkChild (command c) (argv c) (owner c) false (signals c))
                 p (children s))
          (responses s) (dirs s) (pending s)
          (trace s ++
             [ConsoleLog [LStr ("Python process finished with exit code "
                                +:+ Js.show_code code)]])
          (next_pid s) (next_req s)).
Proof.
  intros Hc Hw. unfold is_webcam in Hw. destruct (owner c) as [r |] eqn:Ho; [| done].
  unfold_handlers; unfold_prims. exec_job. done.
Qed.

(** When a webcam child closes, the handler logs the exit code and sets
    the handle to null, whichever child the handle referred to; it writes
    on no response; and a start request that follows is accepted. *)
Theorem webcam_close_clears_handle s p c code :
  children s !! p = Some c -> is_webcam c = true ->
  exists s',
    step cwd toString (ChildClose p code) s = Ok s' /\
    pythonProcess s' = None /\
    is_alive p s' = false /\
    responses s' = responses s /\
    trace s' = trace s ++
      [ConsoleLog [LStr ("Python process finished with exit code " +:+ Js.show_code code)]] /\
    exists s'',
      step cwd toString (GetWebcam (Some "start")) s' = Ok s'' /\
      pythonProcess s'' = Some (next_pid s) /\
      is_alive (next_pid s) s'' = true.
Proof.
  intros Hc Hw. eexists. split; [apply (webcam_close_step s p c code Hc Hw) |].
  simpl. split; [done |].
  split; [unfold is_alive; simpl; by rewrite lookup_alter_eq, Hc |].
  split; [done |]. split; [done |].
  match goal with |- context [step _ _ _ ?st] => set (s' := st) end.
  destruct (start_idle_step s' eq_refl) as (s'' & Hs'' & Hpp & Hch & _).
  exists s''. split; [exact Hs'' |]. split; [exact Hpp |].
  unfold is_alive. rewrite Hch. simpl. by rewrite lookup_insert_eq.
Qed.

(** A request whose action is neither [start] nor [stop] is answered 400
    and changes nothing but its own response. *)
Theorem invalid_action_rejected action s :
  action <> Some "start" -> action <> Some "stop" ->
  step cwd toString (GetWebcam action) s =
    Ok (mkState (pythonProcess s) (image_path s) (children s)
          (<[next_req s :=
               json_response 400
                 (JObj [("error", JStr "Invalid action. Use ?action=start or ?action=stop")])]>
             (responses s))
          (dirs s) (pending s)
          (trace s ++ [Sent (next_req s) 400
                            (JObj [("error",
                                    JStr "Invalid action. Use ?action=start or ?action=stop")])])
          (next_pid s) (S (next_req s))).
Proof.
  intros H1 H2. unfold_handlers; unfold_prims.
  rewrite !bool_decide_eq_false_2 by done. exec.
  by rewrite !insert_insert_eq.
Qed.

(** A start request on an idle server makes sure [./output] exists,
    spawns [python3 detect.py] on the webcam (source 0), points the handle
    at the new child and opens the multipart stream on its response,
    without writing or ending it. *)
Theorem start_on_idle_server s :
  pythonProcess s = None ->
  exists s',
    step cwd toString (GetWebcam (Some "start")) s = Ok s' /\
    pythonProcess s' = Some (next_pid s) /\
    children s' =
      <[next_pid s :=
          mkChild "python3"
            [Path.resolve cwd ["./yolov5/detect.py"];
             "--weights"; "./yolov5/yolov5s.pt"; "--img"; "640"; "--conf"; "0.4";
             "--source"; "0"; "--project"; "./output"; "--name"; "webcam_results"]
            (WebcamProc (next_req s)) true []]> (children s) /\
    responses s' =
      <[next_req s :=
          mkResponse 200
            {["Content-Type" := "multipart/x-mixed-replace; boundary=frame"]}
            false [] false]> (responses s) /\
    Path.resolve cwd ["./output"] ∈ dirs s' /\
    (MkdirSync (Path.resolve cwd ["./output"]) ∈ trace s' <->
     MkdirSync (Path.resolve cwd ["./output"]) ∈ trace s \/
     Path.resolve cwd ["./output"] ∉ dirs s) /\
    next_pid s' = S (next_pid s) /\ next_req s' = S (next_req s) /\
    image_path s' = image_path s /\ pending s' = pending s.
Proof.
  intros H. unfold_handlers; unfold_prims. simpl. rewrite H. simpl.
  destruct (bool_decide (Path.resolve cwd ["./output"] ∈ dirs s)) eqn:Hd; exec.
  all: eexists; split; [reflexivity |]; simpl.
  all: rewrite !insert_insert_eq; repeat (split; [done |]).
  - apply bool_decide_eq_true in Hd. split; [done |]. split; [| done].
    rewrite !elem_of_app, !elem_of_cons, !elem_of_nil. naive_solver.
  - apply bool_decide_eq_false in Hd.
    split; [set_solver |].
    split; [| done].
    rewrite !elem_of_app, !elem_of_cons, !elem_of_nil. naive_solver.
Qed.

(** *** Detection jobs, continued *)

(** A request without a file is answered 400; no directory is created
    and no process spawned. *)
Theorem detect_without_file req hex s :
  req_file req = None ->
  step cwd toString (PostDetect req hex) s =
    Ok (mkState (pythonProcess s) (image_path s) (children s)
          (<[next_req s := json_response 400 (JObj [("error", JStr "No image uploaded")])]>
             (responses s))
          (dirs s) (pending s)
          (trace s ++ [Sent (next_req s) 400 (JObj [("error", JStr "No image uploaded")])])
          (next_pid s) (S (next_req s))).
Proof.
  intros H. unfold_handlers; unfold_prims. rewrite H. exec.
  by rewrite !insert_insert_eq.
Qed.

Lemma readdir_error_step s p job path err :
  awaiting s p job ->
  exists s',
    step cwd toString (ReaddirDone p path (inl err)) s = Ok s' /\
    responses s' !! job_res job =
      Some (json_response 500 (err1 "Failed to read result folder")) /\
    image_path s' = image_path s /\
    trace s' = trace s ++
      [ConsoleError [LStr "Error reading result folder:"; LError err];
       Sent (job_res job) 500 (err1 "Failed to read result folder")].
Proof.
  intros [(c & Hc & Ho) Hr]. unfold_handlers; unfold_prims. exec_job.
  eexists; split; [reflexivity |]. simpl. rewrite lookup_insert_eq.
  split; [done |]. split; [done |]. by rewrite <- !app_assoc.
Qed.

(** A job whose child exited with code 0 but whose result folder cannot
    be listed answers 500 with [{error: "Failed to read result folder"}];
    the error itself goes to the console only. *)
Theorem listing_failure s req file hex es1 es2 s1 path err :
  reachable cwd toString s ->
  req_file req = Some file ->
  run cwd toString
      (PostDetect req hex :: es1 ++ ChildClose (next_pid s) (Some 0) :: es2) s
    = Some s1 ->
  quiet (next_pid s) es1 = true -> quiet (next_pid s) es2 = true ->
  exists s2,
    step cwd toString (ReaddirDone (next_pid s) path (inl err)) s1 = Ok s2 /\
    responses s2 !! next_req s =
      Some (json_response 500 (JObj [("error", JStr "Failed to read result folder")])) /\
    image_path s2 = image_path s1 /\
    trace s2 = trace s1 ++
      [ConsoleError [LStr "Error reading result folder:"; LError err];
       Sent (next_req s) 500 (JObj [("error", JStr "Failed to read result folder")])].
Proof.
  intros Hreach Hf Hrun Hq1 Hq2.
  destruct (job_listing _ _ _ _ _ _ _ Hreach Hf Hrun Hq1 Hq2) as (e & o & Haw & _).
  destruct (readdir_error_step _ _ _ path err Haw) as (s2 & Hs2 & Hresp & Hip & Htr).
  exists s2. done.
Qed.

Lemma detect_error_step s p job err :
  awaiting s p job ->
  exists s',
    step cwd toString (ChildError p err) s = Ok s' /\
    responses s' !! job_res job =
      Some (json_response 500 (err2 "Failed to start the Python process" (message err))) /\
    children s' = children s.
Proof.
  intros [(c & Hc & Ho) Hr]. unfold_handlers; unfold_prims. exec_job.
  eexists; split; [reflexivity |]. simpl. rewrite lookup_insert_eq. done.
Qed.

(** A [close] with a non-zero code on a job that has answered: the second
    answer is refused by Express and the exception leaves the callback. *)
Lemma detect_close_after_answer s p c job x code :
  children s !! p = Some c -> owner c = DetectProc job ->
  responses s !! job_res job = Some x -> headersSent x = true ->
  nonzero code = true ->
  step cwd toString (ChildClose p code) s = Uncaught (mkError "ERR_HTTP_HEADERS_SENT").
Proof.
  intros Hc Ho Hr Hh Hnz. unfold_handlers; unfold_prims. exec_job.
  rewrite Hnz. exec_job. rewrite Hh. done.
Qed.

(** When the child of a detection job fails to start, the [error] handler
    answers 500 with the message of the error; the [close] that follows
    with a non-zero code (the negated errno) then answers a second time on
    the same response, which Express refuses: ERR_HTTP_HEADERS_SENT is
    raised out of the [close] callback and nothing catches it. *)
Theorem detect_spawn_failure s req file hex es s1 err code :
  reachable cwd toString s ->
  req_file req = Some file ->
  run cwd toString (PostDetect req hex :: es) s = Some s1 ->
  quiet (next_pid s) es = true ->
  nonzero code = true ->
  exists s2,
    enabled (ChildError (next_pid s) err) s1 = true /\
    step cwd toString (ChildError (next_pid s) err) s1 = Ok s2 /\
    responses s2 !! next_req s =
      Some (json_response 500
              (JObj [("error", JStr "Failed to start the Python process");
                     ("details", JStr (message err))])) /\
    enabled (ChildClose (next_pid s) code) s2 = true /\
    step cwd toString (ChildClose (next_pid s) code) s2 =
      Uncaught (mkError "ERR_HTTP_HEADERS_SENT").
Proof.
  intros Hreach Hf Hrun Hq Hnz.
  destruct (job_running _ _ _ _ _ _ Hreach Hf Hrun Hq) as (_ & Hal & Haw).
  destruct (detect_error_step _ _ _ err Haw) as (s2 & Hs2 & Hresp & Hch).
  destruct Haw as [(c & Hc & Ho) _].
  exists s2. split; [exact Hal |]. split; [exact Hs2 |]. split; [exact Hresp |].
  split.
  - simpl. unfold is_alive in *. by rewrite Hch.
  - rewrite <- Hch in Hc.
    by apply (detect_close_after_answer s2 _ c _ _ code Hc Ho Hresp).
Qed.

(** *** What holds in every reachable state *)

Lemma reachable_handle_ok s : reachable cwd toString s -> handle_ok s.
Proof.
  intros [es H]. eapply (run_handle_ok); [apply wf_init | apply handle_ok_init | exact H].
Qed.

(** Whenever the handle is set, it refers to a webcam child whose [close]
    event has not been emitted and to which no signal was sent. *)
Theorem handle_refers_to_live_webcam s p :
  reachable cwd toString s ->
  pythonProcess s = Some p ->
  exists c,
    children s !! p = Some c /\ is_webcam c = true /\
    alive c = true /\ signals c = [].
Proof. intros Hreach. apply (ho_handle s (reachable_handle_ok s Hreach)). Qed.

(** The children of detection jobs are never signalled, and no child is
    signalled more than once: the only signal ever sent is one SIGTERM
    to a webcam child. *)
Theorem signals_sent s p c :
  reachable cwd toString s ->
  children s !! p = Some c ->
  (is_webcam c = false -> signals c = []) /\
  (signals c = [] \/ signals c = ["SIGTERM"]).
Proof.
  intros Hreach Hc. pose proof (reachable_handle_ok s Hreach) as H.
  split; [apply (ho_detect s H p c Hc) | apply (ho_once s H p c Hc)].
Qed.

(** No two children answer on the same response object, and the response
    object of a child was created before the requests still to come. *)
Theorem children_have_their_own_response s p1 p2 c1 c2 :
  reachable cwd toString s ->
  children s !! p1 = Some c1 -> children s !! p2 = Some c2 ->
  p1 <> p2 ->
  owner_res (owner c1) <> owner_res (owner c2) /\
  (owner_res (owner c1) < next_req s)%nat /\ (p1 < next_pid s)%nat.
Proof.
  intros Hreach H1 H2 Hne. apply (reachable_wf) in Hreach.
  split; [| split].
  - intros Heq. apply Hne. eapply (wf_inj s Hreach); eauto.
  - eapply wf_res; eauto.
  - eapply wf_pid; eauto.
Qed.

(** An event of another child, or a request, changes neither the closure
    of child [p], nor its command line, nor what has been sent on the
    response [p] answers on, and is not the [close] of [p].  The one thing
    it can do to [p] is to signal it: a stop request while the handle
    refers to [p] sends it SIGTERM. *)
Theorem other_events_only_signal_child e s s' p c :
  reachable cwd toString s ->
  children s !! p = Some c ->
  event_pid e <> Some p ->
  step cwd toString e s = Ok s' ->
  (exists c',
     children s' !! p = Some c' /\ owner c' = owner c /\
     alive c' = alive c /\ command c' = command c /\ argv c' = argv c /\
     (signals c' = signals c \/
      e = GetWebcam (Some "stop") /\ pythonProcess s = Some p /\
      signals c' = signals c ++ ["SIGTERM"])) /\
  responses s' !! owner_res (owner c) = responses s !! owner_res (owner c).
Proof.
  intros Hreach Hc Hne Hs. apply (reachable_wf) in Hreach.
  destruct (step_isolated e s s' p c Hreach Hc Hne Hs)
    as [(c' & Hc' & Ho & Ha) Hr].
  destruct (step_child e s s' p c Hreach Hc Hs)
    as (c'' & Hc'' & Hcmd & Hargv & _).
  destruct (step_view e s s' p c Hreach Hc Hs)
    as (c3 & Hc3 & _ & _ & Hsig).
  simplify_eq. split; [| done]. exists c'. done.
Qed.

(** Who writes the two module-level variables: [image_path] changes only
    in the listing callback of a job, and the handle only in a webcam
    request or at the [close] of a webcam child.  In particular no
    detection request and no event of a detection child touches the
    webcam session. *)
Theorem writers_of_globals e s s' :
  step cwd toString e s = Ok s' ->
  (image_path s' <> image_path s ->
   exists p path files, e = ReaddirDone p path (inr files)) /\
  (pythonProcess s' <> pythonProcess s ->
   (exists action, e = GetWebcam action) \/
   (exists p code c, e = ChildClose p code /\ children s !! p = Some c /\
                     is_webcam c = true)).
Proof.
  destruct e; unfold_handlers; unfold_prims; exec; intros [= <-]; simpl.
  all: split; intros Hneq; try done.
  all: try (left; by eauto).
  all: try (by eauto).
  all: right; do 3 eexists; split; [reflexivity |]; split; [eassumption |].
  all: unfold is_webcam; by repeat match goal with H : owner _ = _ |- _ => rewrite H end.
Qed.

Lemma detect_post_child s req file hex :
  req_file req = Some file ->
  exists s',
    step cwd toString (PostDetect req hex) s = Ok s' /\
    children s' !! next_pid s =
      Some (mkChild "python3.11" (detect_argv cwd file hex)
                    (DetectProc (new_job cwd s file hex)) true []).
Proof.
  intros Hf. unfold_handlers; unfold_prims. rewrite Hf.
  destruct (bool_decide (Path.resolve cwd ["./output"; hex] ∈ dirs s)) eqn:Hd;
    simpl; rewrite Hd; simpl.
  all: eexists; split; [reflexivity |]; simpl; by rewrite lookup_insert_eq.
Qed.

Lemma run_child es : forall s s1 p c,
  wf s -> children s !! p = Some c -> run cwd toString es s = Some s1 ->
  exists c', children s1 !! p = Some c' /\ command c' = command c /\ argv c' = argv c.
Proof.
  induction es as [| e es IH]; intros s s1 p c Hwf Hc Hrun.
  - injection Hrun as <-. eauto.
  - apply (run_cons_inv) in Hrun as (s' & _ & Hs & Hrun).
    destruct (step_child e s s' p c Hwf Hc Hs) as (c' & Hc' & Hcmd & Hargv & _).
    assert (Hwf' : wf s') by (eapply step_wf; eauto).
    destruct (IH _ _ _ _ Hwf' Hc' Hrun) as (c'' & Hc'' & Hcmd' & Hargv').
    exists c''. split; [done |]. split; congruence.
Qed.

(** The detector of a job is [python3.11 detect.py] with the uploaded
    file as [--source] and the job's own folder as [--project]; this
    command line never changes; the file whose deletion is asked for when
    the child closes is that [--source], and the folder listed after exit
    code 0 is [--project] joined with [--name]. *)
Theorem detector_contract s req file hex es s1 :
  reachable cwd toString s ->
  req_file req = Some file ->
  run cwd toString (PostDetect req hex :: es) s = Some s1 ->
  quiet (next_pid s) es = true ->
  exists c src proj,
    src = Path.resolve cwd [file_path file] /\
    proj = Path.resolve cwd ["./output"; hex] /\
    children s1 !! next_pid s = Some c /\
    command c = "python3.11" /\
    argv c = [Path.resolve cwd ["./yolov5/detect.py"];
              "--weights"; "./yolov5/yolov5s.pt"; "--img"; "640"; "--conf"; "0.4";
              "--source"; src; "--project"; proj; "--name"; "results"] /\
    (forall code, exists s2 rest,
       step cwd toString (ChildClose (next_pid s) code) s1 = Ok s2 /\
       trace s2 = trace s1 ++ FsUnlink src :: rest) /\
    (exists s2,
       step cwd toString (ChildClose (next_pid s) (Some 0)) s1 = Ok s2 /\
       last (trace s2) = Some (FsReaddir (Path.join proj "results"))).
Proof.
  intros Hreach Hf Hrun Hq.
  destruct (job_running _ _ _ _ _ _ Hreach Hf Hrun Hq) as (_ & _ & Haw).
  apply (reachable_wf) in Hreach.
  apply (run_cons_inv) in Hrun as (s' & _ & Hs & Hrun).
  destruct (detect_post_child s req file hex Hf) as (s'' & Hs'' & Hc).
  rewrite Hs in Hs''. injection Hs'' as <-.
  assert (Hwf' : wf s') by (eapply step_wf; eauto).
  destruct (run_child es s' s1 _ _ Hwf' Hc Hrun) as (c & Hc1 & Hcmd & Hargv).
  exists c. do 2 eexists. split; [reflexivity |]. split; [reflexivity |].
  split; [exact Hc1 |]. split; [exact Hcmd |]. split; [exact Hargv |]. split.
  - intros code. destruct (nonzero code) eqn:Hnz.
    + destruct (detect_close_failure _ _ _ code Haw Hnz)
        as (s2 & Hs2 & _ & Htr & _).
      exists s2. eexists. split; [exact Hs2 | exact Htr].
    + destruct code as [[] |]; try done.
      destruct (detect_close_success _ _ _ Haw) as (s2 & Hs2 & _ & Htr & _).
      exists s2. eexists. split; [exact Hs2 | exact Htr].
  - destruct (detect_close_success _ _ _ Haw) as (s2 & Hs2 & _ & Htr & _).
    exists s2. split; [exact Hs2 |]. rewrite Htr. simpl.
    by rewrite (last_app _ [_; _; _]).
Qed.

(** Until its child closes or fails, a job sends nothing: whatever the
    child prints and whatever else the server does, the response of the
    request is as Express created it. *)
Theorem job_answers_only_at_exit s req file hex es s1 :
  reachable cwd toString s ->
  req_file req = Some file ->
  run cwd toString (PostDetect req hex :: es) s = Some s1 ->
  quiet (next_pid s) es = true ->
  responses s1 !! next_req s = Some fresh_response /\
  is_alive (next_pid s) s1 = true.
Proof.
  intros Hreach Hf Hrun Hq.
  destruct (job_running _ _ _ _ _ _ Hreach Hf Hrun Hq) as (_ & Hal & Haw).
  split; [apply Haw | exact Hal].
Qed.

(** *** A spawn that fails *)





End Properties.

(** ** Names, extensions and paths *)

Lemma loop_plain_set l : forall rest i sp e,
  Forall plain l -> e <> -1 ->
  Path.extname_loop (l ++ rest) i (Path.Scan (-1) sp e false 0) =
  Path.extname_loop rest (i - Z.of_nat (length l)) (Path.Scan (-1) sp e false 0).
Proof.
  induction l as [| c l IH]; intros rest i sp e Hl He.
  - simpl. f_equal. lia.
  - apply Forall_cons in Hl as [[Hs Hd] Hl]. simpl. rewrite Hs, Hd. cbn.
    destruct (e =? -1) eqn:E; [lia |]. cbn.
    rewrite IH by done. f_equal. lia.
Qed.

Lemma loop_plain l : forall rest i sp,
  Forall plain l -> l <> [] -> 0 <= i ->
  Path.extname_loop (l ++ rest) i (Path.Scan (-1) sp (-1) true 0) =
  Path.extname_loop rest (i - Z.of_nat (length l)) (Path.Scan (-1) sp (i + 1) false 0).
Proof.
  intros rest i sp Hl Hne Hi. destruct l as [| c l]; [done |].
  apply Forall_cons in Hl as [[Hs Hd] Hl]. simpl. rewrite Hs, Hd. cbn.
  rewrite loop_plain_set by (done || lia). f_equal. lia.
Qed.

Lemma loop_stem l : forall i d sp e pd,
  Forall (fun c => Path.is_slash c = false) l -> d <> -1 -> e <> -1 ->
  Path.extname_loop l i (Path.Scan d sp e false pd) =
  Path.Scan d sp e false
    (match last l with
     | Some c => if Path.is_dot c then 1 else -1
     | None => pd
     end).
Proof.
  induction l as [| c l IH]; intros i d sp e pd Hl Hd He; [done |].
  apply Forall_cons in Hl as [Hs Hl]. simpl. rewrite Hs. cbn.
  destruct (e =? -1) eqn:E; [lia |].
  destruct (d =? -1) eqn:D; [lia |].
  assert (Hlast : forall pd',
            pd' = (if Path.is_dot c then 1 else -1) ->
            match last l with
            | Some c0 => if Path.is_dot c0 then 1 else -1
            | None => pd'
            end =
            match last (c :: l) with
            | Some c0 => if Path.is_dot c0 then 1 else -1
            | None => pd
            end).
  { intros pd' ->. destruct l as [| a l]; [done |].
    change (last (c :: a :: l)) with (last (a :: l)).
    destruct (last (a :: l)) eqn:L; [done |]. by apply last_None in L. }
  destruct (Path.is_dot c) eqn:Hc; cbn; rewrite ?D; cbn.
  - destruct (pd =? 1) eqn:P; cbn.
    + apply Z.eqb_eq in P. subst pd. rewrite IH by done. by rewrite Hlast.
    + rewrite IH by done. by rewrite Hlast.
  - rewrite IH by done. by rewrite Hlast.
Qed.

(** For a name [stem.ext] without separator, where [ext] has no dot, the
    extension is [.ext], unless [stem] is empty (a dot file) or the name
    is [..]. *)
Lemma extname_stem_ext stem ext :
  Forall (fun c => Path.is_slash c = false) stem -> Forall plain ext ->
  stem <> [] -> (stem <> ["."%char] \/ ext <> []) ->
  Path.extname (string_of_list_ascii (stem ++ "."%char :: ext)) =
  string_of_list_ascii ("."%char :: ext).
Proof.
  intros Hstem Hext Hne Hdd. unfold Path.extname.
  rewrite list_ascii_of_string_of_list_ascii.
  set (cs := stem ++ "."%char :: ext).
  assert (Hrev : rev cs = rev ext ++ "."%char :: rev stem).
  { unfold cs. rewrite rev_app_distr. simpl. by rewrite <- app_assoc. }
  assert (Hlen : Z.of_nat (length cs) = Z.of_nat (length stem) + 1 + Z.of_nat (length ext)).
  { unfold cs. rewrite length_app. simpl. lia. }
  assert (Hpos : length stem <> 0%nat) by (by destruct stem).
  assert (Hloop :
    Path.extname_loop (rev cs) (Z.of_nat (length cs) - 1) Path.scan0 =
    Path.Scan (Z.of_nat (length stem)) 0 (Z.of_nat (length cs)) false
      (match head stem with
       | Some c => if Path.is_dot c then 1 else -1
       | None => 0
       end)).
  { rewrite Hrev. unfold Path.scan0.
    assert (Hstem' : Forall (fun c => Path.is_slash c = false) (rev stem)).
    { by apply List.Forall_rev. }
    assert (Hhead : last (rev stem) = head stem).
    { destruct stem as [| c stem]; [done |]. simpl. by rewrite last_snoc. }
    assert (Hm : 1 <= Z.of_nat (length stem)) by lia.
    assert (Hk : 0 <= Z.of_nat (length ext)) by lia.
    destruct ext as [| x ext].
    - simpl in Hlen. simpl rev. simpl app.
      remember (Z.of_nat (length cs)) as n. remember (Z.of_nat (length stem)) as m.
      simpl. cbn. rewrite loop_stem by (done || lia). rewrite Hhead.
      f_equal; lia.
    - rewrite loop_plain; [| by apply List.Forall_rev | | lia].
      2: { intros R. apply (f_equal length) in R. by rewrite length_rev in R. }
      rewrite length_rev.
      remember (Z.of_nat (length cs)) as n. remember (Z.of_nat (length stem)) as m.
      remember (Z.of_nat (length (x :: ext))) as k.
      simpl Path.extname_loop. cbn.
      destruct (n - 1 + 1 =? -1) eqn:E; [lia |]. cbn.
      rewrite loop_stem by (done || lia). rewrite Hhead.
      f_equal; lia. }
  rewrite Hloop. cbn [Path.startDot Path.endIdx Path.preDotState Path.startPart].
  set (pd := match head stem with
             | Some c => if Path.is_dot c then 1 else -1
             | None => 0
             end).
  assert (Hpd0 : pd <> 0).
  { unfold pd. destruct stem as [| c stem]; [done |]. simpl. by destruct (Path.is_dot c). }
  assert (Hpd1 : pd = 1 -> Z.of_nat (length stem) = 1 -> stem = ["."%char]).
  { unfold pd. destruct stem as [| c [| c' stem]]; simpl; try lia.
    destruct (Path.is_dot c) eqn:Hc; [| done]. apply Ascii.eqb_eq in Hc. by subst c. }
  assert (Hext0 : Z.of_nat (length stem) = Z.of_nat (length cs) - 1 -> ext = []).
  { intros H. destruct ext; [done |]. simpl in Hlen. lia. }
  destruct (Z.eqb_spec (Z.of_nat (length stem)) (-1)); [lia |].
  destruct (Z.eqb_spec (Z.of_nat (length cs)) (-1)); [lia |].
  destruct (Z.eqb_spec pd 0); [done |].
  destruct (Z.eqb_spec pd 1);
    destruct (Z.eqb_spec (Z.of_nat (length stem)) (Z.of_nat (length cs) - 1));
    destruct (Z.eqb_spec (Z.of_nat (length stem)) (0 + 1)); simpl.
  1: { exfalso. destruct Hdd as [H | H]; [apply H; apply Hpd1 | apply H; apply Hext0]; lia. }
  all: change (String "." (string_of_list_ascii ext))
         with (string_of_list_ascii ("."%char :: ext)).
  all: f_equal; unfold Js.slice.
  all: rewrite Nat2Z.id; unfold cs at 2; rewrite drop_app_length.
  all: apply take_ge; simpl; lia.
Qed.

Lemma extname_no_dot cs :
  Forall plain cs -> Path.extname (string_of_list_ascii cs) = EmptyString.
Proof.
  intros Hcs. unfold Path.extname. rewrite list_ascii_of_string_of_list_ascii.
  destruct cs as [| c cs]; [done |].
  replace (rev (c :: cs)) with (rev (c :: cs) ++ []) by apply app_nil_r.
  unfold Path.scan0. rewrite loop_plain.
  - done.
  - by apply List.Forall_rev.
  - intros R. apply (f_equal length) in R. by rewrite length_rev in R.
  - simpl length. lia.
Qed.

Lemma extname_dot_file ext :
  Forall plain ext ->
  Path.extname (string_of_list_ascii ("."%char :: ext)) = EmptyString.
Proof.
  intros Hext. unfold Path.extname. rewrite list_ascii_of_string_of_list_ascii.
  destruct ext as [| x ext]; [done |].
  change (rev ("."%char :: x :: ext)) with (rev (x :: ext) ++ ["."%char]).
  unfold Path.scan0. rewrite loop_plain.
  - rewrite length_rev.
    remember (Z.of_nat (length ("."%char :: x :: ext))) as n.
    remember (Z.of_nat (length (x :: ext))) as k.
    assert (n = k + 1) by (subst; simpl length; lia).
    simpl Path.extname_loop. cbn.
    destruct (n - 1 + 1 =? -1) eqn:E; [simpl length in *; lia |]. cbn.
    by rewrite !orb_true_r.
  - by apply List.Forall_rev.
  - intros R. apply (f_equal length) in R. by rewrite length_rev in R.
  - simpl length. lia.
Qed.

(** A name without separator has no dot, or splits at its last dot. *)
Lemma split_last_dot cs :
  Forall (fun c => Path.is_slash c = false) cs ->
  Forall plain cs \/
  exists stem ext, cs = stem ++ "."%char :: ext /\ Forall plain ext /\
                   Forall (fun c => Path.is_slash c = false) stem.
Proof.
  induction cs as [| c cs IH]; intros Hcs; [left; constructor |].
  apply Forall_cons in Hcs as [Hc Hcs].
  destruct (IH Hcs) as [Hp | (stem & ext & -> & Hext & Hstem)].
  - destruct (Path.is_dot c) eqn:Hd.
    + right. exists [], cs. apply Ascii.eqb_eq in Hd. subst c. done.
    + left. by constructor.
  - right. exists (c :: stem), ext. split; [done |]. split; [done |]. by constructor.
Qed.
Lemma chars_app a b :
  list_ascii_of_string (a +:+ b) = list_ascii_of_string a ++ list_ascii_of_string b.
Proof. induction a as [| c a IH]; [done |]. simpl. by rewrite <- IH. Qed.

Lemma string_of_chars_app a b :
  string_of_list_ascii (a ++ b) = string_of_list_ascii a +:+ string_of_list_ascii b.
Proof. induction a as [| c a IH]; [done |]. simpl. by rewrite IH. Qed.

Lemma upper_plain_table :
  forallb (fun a =>
    forallb (fun b =>
      implb (Ascii.eqb (Js.upper_ascii a) (Js.upper_ascii b))
            (Bool.eqb (Path.is_slash a) (Path.is_slash b)
             && Bool.eqb (Path.is_dot a) (Path.is_dot b)))
      Js.all_ascii) Js.all_ascii = true.
Proof. vm_compute. reflexivity. Qed.

Lemma upper_plain a b :
  Ascii.eqb (Js.upper_ascii a) (Js.upper_ascii b) = true -> plain b -> plain a.
Proof.
  intros Hab [Hs Hd]. pose proof upper_plain_table as H.
  rewrite forallb_forall in H. specialize (H a (in_all_ascii a)).
  rewrite forallb_forall in H. specialize (H b (in_all_ascii b)).
  rewrite Hab, Hs, Hd in H. simpl in H. apply andb_prop in H as [H1 H2].
  apply eqb_prop in H1, H2. done.
Qed.

Lemma ci_eqb_plain e : forall x,
  Js.ci_eqb e x = true -> Forall plain (list_ascii_of_string x) ->
  Forall plain (list_ascii_of_string e).
Proof.
  induction e as [| c e IH]; intros [| y x] H Hx; simpl in *; try done.
  apply andb_prop in H as [H1 H2]. apply Forall_cons in Hx as [Hy Hx].
  constructor; [by eapply upper_plain | by eapply IH].
Qed.

(** The extension of a name without separator: empty, or the part from
    its last dot on. *)
Lemma extname_shape name :
  Forall noslash (list_ascii_of_string name) ->
  Path.extname name = EmptyString \/
  exists stem ext,
    name = stem +:+ "." +:+ ext /\ stem <> EmptyString /\
    Forall plain (list_ascii_of_string ext) /\
    Forall noslash (list_ascii_of_string stem) /\
    Path.extname name = "." +:+ ext.
Proof.
  intros Hn. rewrite <- (string_of_list_ascii_of_string name).
  destruct (split_last_dot _ Hn) as [Hp | (stem & ext & Heq & Hext & Hstem)].
  - left. by apply extname_no_dot.
  - rewrite Heq.
    destruct stem as [| c stem]; [left; by apply extname_dot_file |].
    destruct (decide (c :: stem = ["."%char] /\ ext = [])) as [[-> ->] | Hnd].
    { by left. }
    right. exists (string_of_list_ascii (c :: stem)), (string_of_list_ascii ext).
    rewrite !list_ascii_of_string_of_list_ascii.
    split; [by rewrite string_of_chars_app |]. split; [done |].
    split; [done |]. split; [done |].
    apply extname_stem_ext; try done.
    destruct (decide (c :: stem = ["."%char])); [| by left].
    right. intros ->. by apply Hnd.
Qed.

Lemma existsb_ci_dot ext :
  existsb (Js.ci_eqb ("." +:+ ext)) image_extensions =
  existsb (Js.ci_eqb ext) ["jpg"; "jpeg"; "png"; "bmp"].
Proof. reflexivity. Qed.

Theorem filter_keeps_named_images name :
  Forall noslash (list_ascii_of_string name) ->
  (is_image name = true <->
   exists stem ext,
     name = stem +:+ "." +:+ ext /\ stem <> EmptyString /\
     existsb (Js.ci_eqb ext) ["jpg"; "jpeg"; "png"; "bmp"] = true).
Proof.
  intros Hn. rewrite is_image_ci. split.
  - intros H. destruct (extname_shape name Hn) as [He | (stem & ext & Heq & Hs & _ & _ & He)].
    + rewrite He in H. discriminate H.
    + exists stem, ext. rewrite He, existsb_ci_dot in H. done.
  - intros (stem & ext & Heq & Hs & H).
    assert (Hext : Forall plain (list_ascii_of_string ext)).
    { apply existsb_exists in H as (x & Hx & Hci).
      apply (ci_eqb_plain _ x Hci).
      simpl in Hx. destruct Hx as [<- | [<- | [<- | [<- | []]]]];
        repeat constructor. }
    assert (Hne : ext <> EmptyString).
    { intros ->. discriminate H. }
    subst name. rewrite !chars_app in Hn. apply Forall_app in Hn as [Hstem _].
    rewrite <- (string_of_list_ascii_of_string stem),
            <- (string_of_list_ascii_of_string ext) at 1.
    change ("." +:+ string_of_list_ascii (list_ascii_of_string ext))
      with (string_of_list_ascii ("."%char :: list_ascii_of_string ext)).
    rewrite <- string_of_chars_app, extname_stem_ext; try done.
    + change (string_of_list_ascii ("."%char :: list_ascii_of_string ext))
        with ("." +:+ string_of_list_ascii (list_ascii_of_string ext)).
      by rewrite string_of_list_ascii_of_string, existsb_ci_dot.
    + by destruct stem.
    + right. by destruct ext.
Qed.

Lemma uint_plain u : Forall plain (list_ascii_of_string (NilEmpty.string_of_uint u)).
Proof. induction u; simpl; repeat constructor; done. Qed.

Lemma show_int_plain z : Forall plain (list_ascii_of_string (show_int z)).
Proof.
  unfold show_int, NilZero.string_of_int, NilZero.string_of_uint.
  destruct (Z.to_int z) as [u | u]; destruct u; simpl;
    repeat constructor; apply uint_plain.
Qed.

(** The stored name of an upload has the extension of the original name. *)
Theorem upload_keeps_extension fieldname now originalname :
  Forall plain (list_ascii_of_string fieldname) ->
  Forall noslash (list_ascii_of_string originalname) ->
  Path.extname (multer_filename fieldname now originalname) =
  Path.extname originalname.
Proof.
  intros Hf Ho. unfold multer_filename.
  set (stem := fieldname +:+ "-" +:+ show_int now).
  assert (Hstem : Forall plain (list_ascii_of_string stem)).
  { unfold stem. rewrite !chars_app. apply Forall_app. split; [done |].
    apply Forall_app. split; [repeat constructor | apply show_int_plain]. }
  assert (Hne : list_ascii_of_string stem <> []).
  { unfold stem. rewrite !chars_app. simpl. by destruct (list_ascii_of_string fieldname). }
  replace (fieldname +:+ "-" +:+ show_int now +:+ Path.extname originalname)
    with (stem +:+ Path.extname originalname)
    by (unfold stem; by rewrite !append_assoc).
  destruct (extname_shape originalname Ho) as [-> | (s & ext & _ & _ & Hext & _ & ->)].
  - rewrite append_nil_r, <- (string_of_list_ascii_of_string stem).
    by apply extname_no_dot.
  - rewrite <- (string_of_list_ascii_of_string stem),
            <- (string_of_list_ascii_of_string ext).
    change ("." +:+ string_of_list_ascii (list_ascii_of_string ext))
      with (string_of_list_ascii ("."%char :: list_ascii_of_string ext)).
    rewrite <- string_of_chars_app. apply extname_stem_ext; try done.
    + eapply Forall_impl; [exact Hstem |]. by intros c [? ?].
    + left. intros E. rewrite E in Hstem. apply Forall_cons in Hstem as [[_ Hd] _].
      discriminate Hd.
Qed.

Lemma split_go_app l : forall r cur,
  Path.split_go (l ++ "/"%char :: r) cur = Path.split_go l cur ++ Path.split_go r [].
Proof.
  induction l as [| c l IH]; intros r cur; [done |].
  simpl. destruct (Path.is_slash c); simpl; by rewrite IH.
Qed.

Lemma split_go_plain l : forall cur,
  Forall noslash l -> Path.split_go l cur = [rev cur ++ l].
Proof.
  induction l as [| c l IH]; intros cur Hl; simpl.
  - by rewrite app_nil_r.
  - apply Forall_cons in Hl as [Hc Hl]. rewrite Hc, IH by done.
    simpl. by rewrite <- app_assoc.
Qed.

Lemma normalize_app l1 : forall st,
  exists st', forall l2, Path.normalize (l1 ++ l2) st = Path.normalize l2 st'.
Proof.
  induction l1 as [| seg l1 IH]; intros st; [by exists st |].
  simpl. destruct seg as [| c seg]; [apply IH |].
  repeat case_bool_decide; apply IH.
Qed.

(** Resolving one more plain segment appends it. *)
Lemma normalize_snoc y seg :
  plain_segment seg ->
  Path.normalize (Path.split_go (y ++ "/"%char :: seg ++ ["/"%char]) []) [] =
  Path.normalize (Path.split_go (y ++ ["/"%char]) []) [] ++ [seg].
Proof.
  intros (Hns & Hne & Hd & Hdd).
  rewrite !split_go_app, (split_go_plain seg) by done. simpl.
  destruct (normalize_app (Path.split_go y []) []) as (st & Hst).
  rewrite !Hst. simpl. destruct seg as [| c seg]; [done |].
  rewrite !bool_decide_eq_false_2 by done. done.
Qed.


Lemma resolve_snoc cwd base name :
  base <> EmptyString -> Path.is_absolute base = false ->
  plain_segment (list_ascii_of_string name) ->
  exists segs,
    Path.resolve cwd [base] =
      join_segments segs +:+ (match segs with [] => "/" | _ => EmptyString end) /\
    Path.resolve cwd [base; name] = join_segments segs +:+ "/" +:+ name.
Proof.
  intros Hb Habs Hseg.
  assert (Hn : name <> EmptyString).
  { intros ->. by destruct Hseg as (_ & ? & _). }
  assert (Hna : Path.is_absolute name = false).
  { destruct name as [| c name]; [done |]. simpl.
    destruct Hseg as (Hns & _). by apply Forall_cons in Hns as [? _]. }
  exists (Path.normalize
            (Path.split_go (list_ascii_of_string (cwd +:+ "/" +:+ base) ++ ["/"%char]) []) []).
  unfold Path.resolve. simpl.
  destruct base as [| b0 base]; [done |]. destruct name as [| n0 name]; [done |].
  cbn [Path.resolve_args]. rewrite Hna, Habs. cbn [Path.resolve_args].
  set (nm := String n0 name) in *. set (bs := String b0 base) in *.
  assert (E1 : list_ascii_of_string (cwd +:+ "/" +:+ bs +:+ "/" +:+ EmptyString) =
               list_ascii_of_string (cwd +:+ "/" +:+ bs) ++ ["/"%char]).
  { rewrite !chars_app. simpl. by rewrite <- !app_assoc. }
  assert (E2 : list_ascii_of_string
                 (cwd +:+ "/" +:+ bs +:+ "/" +:+ nm +:+ "/" +:+ EmptyString) =
               list_ascii_of_string (cwd +:+ "/" +:+ bs) ++
               "/"%char :: list_ascii_of_string nm ++ ["/"%char]).
  { rewrite !chars_app. simpl. by rewrite <- !app_assoc. }
  split.
  - by rewrite E1.
  - rewrite E2.
    rewrite normalize_snoc by done.
    unfold join_segments. rewrite fold_left_app. simpl.
    rewrite string_of_list_ascii_of_string.
    match goal with |- context [match ?l ++ [?x] with _ => _ end] =>
      destruct l; simpl end.
    all: by rewrite ?(append_nil_r).
Qed.

Lemma hex_digit_table :
  forallb (fun c => implb (is_hex_digit c) (negb (Path.is_slash c)))
          Js.all_ascii = true.
Proof. vm_compute. reflexivity. Qed.

Lemma job_id_segment id :
  is_job_id id = true -> plain_segment (list_ascii_of_string id).
Proof.
  unfold is_job_id. intros H. apply andb_prop in H as [Hlen Hhex].
  apply Nat.eqb_eq in Hlen. rewrite forallb_forall in Hhex.
  split; [| split; [| split]].
  - apply Forall_forall. intros c Hc. apply list_elem_of_In in Hc.
    specialize (Hhex c Hc). pose proof hex_digit_table as T.
    rewrite forallb_forall in T. specialize (T c (in_all_ascii c)).
    rewrite Hhex in T. simpl in T. unfold noslash. by destruct (Path.is_slash c).
  - intros E. by rewrite E in Hlen.
  - intros E. by rewrite E in Hlen.
  - intros E. by rewrite E in Hlen.
Qed.

Lemma append_length a b :
  String.length (a +:+ b) = (String.length a + String.length b)%nat.
Proof. induction a as [| c a IH]; [done |]. simpl. by rewrite <- IH. Qed.

(** The folder of a job is the entry named by the job id in the output
    folder. *)
Theorem job_folder_under_output cwd id :
  is_job_id id = true ->
  Path.resolve cwd ["./output"; id] = Path.resolve cwd ["./output"] +:+ "/" +:+ id.
Proof.
  intros Hid.
  destruct (resolve_snoc cwd "." "output") as (segs0 & _ & H0); [done | done | |].
  { repeat split; try done. repeat constructor. }
  change (Path.resolve cwd ["."; "output"]) with (Path.resolve cwd ["./output"]) in H0.
  destruct (resolve_snoc cwd "./output" id) as (segs & H1 & H2);
    [done | done | by apply job_id_segment |].
  rewrite H2. destruct segs as [| seg segs].
  - exfalso. rewrite H0 in H1. apply (f_equal String.length) in H1.
    rewrite !append_length in H1. simpl in H1. lia.
  - rewrite H1. by rewrite append_nil_r.
Qed.

(** What follows [/output] in the URL of a result image is what follows
    the output folder in the path of the file the detector wrote. *)
Theorem url_mirrors_disk_path cwd id file :
  is_job_id id = true ->
  exists rel,
    image_url id file = "http://localhost:3002/output" +:+ rel /\
    Path.join (Path.join (Path.resolve cwd ["./output"; id]) "results") file =
      Path.resolve cwd ["./output"] +:+ rel.
Proof.
  intros Hid. exists ("/" +:+ id +:+ "/results/" +:+ file). split; [reflexivity |].
  unfold Path.join. rewrite (job_folder_under_output cwd id Hid).
  rewrite !append_assoc. reflexivity.
Qed.

(** Jobs with different identifiers work in different folders. *)
Theorem job_folders_distinct cwd id1 id2 :
  is_job_id id1 = true -> is_job_id id2 = true ->
  Path.resolve cwd ["./output"; id1] = Path.resolve cwd ["./output"; id2] ->
  id1 = id2.
Proof.
  intros H1 H2 H.
  rewrite (job_folder_under_output cwd id1 H1), (job_folder_under_output cwd id2 H2) in H.
  apply (inj (String.app _)) in H. by apply (inj (String.app _)) in H.
Qed.

(** *** URLs *)

Lemma append_inj_length a : forall b x y,
  length (list_ascii_of_string a) = length (list_ascii_of_string b) ->
  a +:+ x = b +:+ y -> a = b /\ x = y.
Proof.
  induction a as [| c a IH]; intros [| d b] x y Hlen H; simpl in *; try done.
  injection H as -> H. injection Hlen as Hlen.
  destruct (IH b x y Hlen H) as [-> ->]. done.
Qed.

(** Two result URLs are equal only for the same job and the same file:
    jobs with different identifiers never share a URL. *)
Theorem urls_do_not_collide id1 id2 file1 file2 :
  is_job_id id1 = true -> is_job_id id2 = true ->
  image_url id1 file1 = image_url id2 file2 ->
  id1 = id2 /\ file1 = file2.
Proof.
  unfold is_job_id, image_url. intros H1 H2 H.
  apply andb_prop in H1 as [H1 _]. apply andb_prop in H2 as [H2 _].
  apply Nat.eqb_eq in H1, H2.
  apply (inj (String.app _)) in H.
  apply append_inj_length in H as [-> H]; [| congruence].
  apply (inj (String.app _)) in H. done.
Qed.

(** ** The sample deployment, run *)

Lemma detect_failure_details_witness :
  exists s2,
    enabled (ChildClose 0%nat (Some 1)) (after (PostDetect upload_a id_a :: failing_events))
      = true /\
    step sample_cwd ascii_text (ChildClose 0%nat (Some 1))
         (after (PostDetect upload_a id_a :: failing_events)) = Ok s2 /\
    responses s2 !! 0%nat =
      Some (json_response 500
              (JObj [("error", JStr "Detection failed");
                     ("details", JStr "Traceback (most recent call last)")])).
Proof.
  apply (detect_failure_details sample_cwd ascii_text init upload_a file_a id_a
           failing_events (after (PostDetect upload_a id_a :: failing_events)) (Some 1)).
  - exists []. reflexivity.
  - reflexivity.
  - vm_compute. reflexivity.
  - reflexivity.
  - reflexivity.
Defined.

Lemma detect_success_urls_witness :
  exists s2 urls,
    step sample_cwd ascii_text (ReaddirDone 0%nat results_a (inr listing_a))
         (after succeeding_events) = Ok s2 /\
    responses s2 !! 0%nat =
      Some (json_response 200
              (JObj [("status", JNum 200); ("image", JArr (map JStr urls))])) /\
    length urls = 2%nat /\
    urls = ["http://localhost:3002/output/0123456789abcdef0123456789abcdef/results/bus.JPG";
            "http://localhost:3002/output/0123456789abcdef0123456789abcdef/results/zidane.png"] /\
    sublist ["bus.JPG"; "zidane.png"] listing_a.
Proof.
  apply (detect_success_urls sample_cwd ascii_text init upload_a file_a id_a
           [ChildStdout 0%nat "image 1/1"]
           [UnlinkDone "/srv/app/uploads/image-1700000000000.jpg" (Some (mkError "EPERM"))]
           (after succeeding_events) results_a listing_a 2%nat).
  - exists []. reflexivity.
  - reflexivity.
  - vm_compute. reflexivity.
  - reflexivity.
  - reflexivity.
  - reflexivity.
  - lia.
Defined.

(** C3 as stated fails for [k = 0]: a child that exits with code 0 and
    leaves no recognized file is answered 500, not 200 with an empty list. *)
Lemma detect_zero_images_counterexample :
  length (imageFiles listing_txt) = 0%nat /\
  exists s2,
    run sample_cwd ascii_text
        (succeeding_events ++ [ReaddirDone 0%nat results_a (inr listing_txt)]) init
      = Some s2 /\
    responses s2 !! 0%nat =
      Some (json_response 500 (JObj [("error", JStr "No images generated")])) /\
    responses s2 !! 0%nat <>
      Some (json_response 200 (JObj [("status", JNum 200); ("image", JArr [])])).
Proof.
  split; [reflexivity |].
  exists (after (succeeding_events ++ [ReaddirDone 0%nat results_a (inr listing_txt)])).
  split; [vm_compute; reflexivity |].
  split; [vm_compute; reflexivity |].
  vm_compute. intros H. discriminate H.
Defined.

Lemma result_filter_no_images_witness :
  (forall listing f,
     In f (imageFiles listing) <->
     In f listing /\
     exists e, In e [".jpg"; ".jpeg"; ".png"; ".bmp"] /\
               Js.ci_eqb (Path.extname f) e = true) /\
  (forall listing, sublist (imageFiles listing) listing) /\
  exists s2,
    enabled (ReaddirDone 0%nat results_a (inr listing_txt)) (after succeeding_events)
      = true /\
    step sample_cwd ascii_text (ReaddirDone 0%nat results_a (inr listing_txt))
         (after succeeding_events) = Ok s2 /\
    responses s2 !! 0%nat =
      Some (json_response 500 (JObj [("error", JStr "No images generated")])).
Proof.
  apply (result_filter_no_images sample_cwd ascii_text init upload_a file_a id_a
           [ChildStdout 0%nat "image 1/1"]
           [UnlinkDone "/srv/app/uploads/image-1700000000000.jpg" (Some (mkError "EPERM"))]
           (after succeeding_events) results_a listing_txt).
  - exists []. reflexivity.
  - reflexivity.
  - vm_compute. reflexivity.
  - reflexivity.
  - reflexivity.
  - reflexivity.
Defined.

Lemma unlink_attempted_and_only_logged_witness :
  (exists s2 rest,
     step sample_cwd ascii_text (ChildClose 0%nat (Some 1))
          (after (PostDetect upload_a id_a :: failing_events)) = Ok s2 /\
     trace s2 =
       trace (after (PostDetect upload_a id_a :: failing_events))
       ++ FsUnlink "/srv/app/uploads/image-1700000000000.jpg" :: rest /\
     PUnlink "/srv/app/uploads/image-1700000000000.jpg" ∈ pending s2 /\
     (forall p', FsUnlink p' ∉ rest) /\
     exists details,
       last rest = Some (Sent 0%nat 500 (err2 "Detection failed" details)) /\
       responses s2 !! 0%nat =
         Some (json_response 500 (err2 "Detection failed" details))) /\
  (forall st path err,
     exists st',
       step sample_cwd ascii_text (UnlinkDone path err) st = Ok st' /\
       responses st' = responses st /\ children st' = children st /\
       pythonProcess st' = pythonProcess st /\ image_path st' = image_path st /\
       trace st' = trace st ++
         match err with
         | Some e => [ConsoleError [LStr "Failed to delete uploaded file:"; LError e]]
         | None => []
         end).
Proof.
  apply (unlink_attempted_and_only_logged sample_cwd ascii_text init upload_a file_a
           id_a failing_events (after (PostDetect upload_a id_a :: failing_events))
           (Some 1)).
  - exists []. reflexivity.
  - reflexivity.
  - vm_compute. reflexivity.
  - reflexivity.
Defined.

Lemma urls_absolute_and_fixed_witness :
  (exists s2 urls,
     step sample_cwd ascii_text (ReaddirDone 0%nat results_a (inr listing_a))
          (after succeeding_events) = Ok s2 /\
     responses s2 !! 0%nat =
       Some (json_response 200
               (JObj [("status", JNum 200); ("image", JArr (map JStr urls))])) /\
     Forall (fun u => String.prefix "http://localhost:3002/output/" u = true) urls) /\
  (forall host st,
     step sample_cwd ascii_text (PostDetect (mkDetectReq (Some file_a) host) id_a) st =
     step sample_cwd ascii_text (PostDetect upload_a id_a) st).
Proof.
  apply (urls_absolute_and_fixed sample_cwd ascii_text init upload_a file_a id_a
           [ChildStdout 0%nat "image 1/1"]
           [UnlinkDone "/srv/app/uploads/image-1700000000000.jpg" (Some (mkError "EPERM"))]
           (after succeeding_events) results_a listing_a).
  - exists []. reflexivity.
  - reflexivity.
  - vm_compute. reflexivity.
  - reflexivity.
  - reflexivity.
  - vm_compute. intros H. discriminate H.
Defined.

(** C2 as stated fails: the handlers of two different jobs write the same
    module-level variable.  After the first job answered, [image_path]
    holds its URLs; the second job's handler then overwrites them. *)
Lemma shared_image_path_counterexample :
  exists s1 s2,
    image_path init = None /\
    run sample_cwd ascii_text two_jobs init = Some s1 /\
    image_path s1 =
      Some ["http://localhost:3002/output/0123456789abcdef0123456789abcdef/results/bus.JPG";
            "http://localhost:3002/output/0123456789abcdef0123456789abcdef/results/zidane.png"] /\
    step sample_cwd ascii_text (ReaddirDone 1%nat results_b (inr listing_b)) s1 = Ok s2 /\
    image_path s2 =
      Some ["http://localhost:3002/output/00112233445566778899aabbccddeeff/results/dog.jpeg"] /\
    image_path s2 <> image_path s1.
Proof.
  exists (after two_jobs),
         (after (two_jobs ++ [ReaddirDone 1%nat results_b (inr listing_b)])).
  split; [reflexivity |].
  split; [vm_compute; reflexivity |].
  split; [vm_compute; reflexivity |].
  split; [vm_compute; reflexivity |].
  split; [vm_compute; reflexivity |].
  vm_compute. intros H. discriminate H.
Defined.

Lemma job_response_own_listing_witness :
  exists s',
    step sample_cwd ascii_text (ReaddirDone 1%nat results_b (inr listing_b))
         (after two_jobs) = Ok s' /\
    responses s' !! 1%nat =
      Some (json_response 200
              (JObj [("status", JNum 200);
                     ("image",
                      JArr [JStr "http://localhost:3002/output/00112233445566778899aabbccddeeff/results/dog.jpeg"])])) /\
    image_path s' =
      Some ["http://localhost:3002/output/00112233445566778899aabbccddeeff/results/dog.jpeg"] /\
    pythonProcess s' = pythonProcess (after two_jobs).
Proof.
  apply (job_response_own_listing sample_cwd ascii_text (after two_jobs) 1%nat
           (mkJob 1%nat "/srv/app/uploads/image-1700000000001.png" id_b
                  "/srv/app/output/00112233445566778899aabbccddeeff" EmptyString EmptyString)
           results_b listing_b).
  - split.
    + eexists. split; vm_compute; reflexivity.
    + vm_compute. reflexivity.
  - vm_compute. intros H. discriminate H.
Defined.

Lemma start_while_running_rejected_witness :
  exists s',
    step sample_cwd ascii_text (GetWebcam (Some "start"))
         (after [GetWebcam (Some "start")]) = Ok s' /\
    responses s' !! 1%nat =
      Some (json_response 400
              (JObj [("error", JStr "Webcam detection is already running.")])) /\
    pythonProcess s' = Some 0%nat /\
    children s' = children (after [GetWebcam (Some "start")]) /\
    (forall r, r <> 1%nat ->
       responses s' !! r = responses (after [GetWebcam (Some "start")]) !! r) /\
    (forall c stream,
       children (after [GetWebcam (Some "start")]) !! 0%nat = Some c ->
       owner c = WebcamProc stream ->
       responses s' !! stream = responses (after [GetWebcam (Some "start")]) !! stream) /\
    image_path s' = image_path (after [GetWebcam (Some "start")]) /\
    pending s' = pending (after [GetWebcam (Some "start")]) /\
    trace s' = trace (after [GetWebcam (Some "start")]) ++
      [Sent 1%nat 400 (JObj [("error", JStr "Webcam detection is already running.")])].
Proof.
  apply (start_while_running_rejected sample_cwd ascii_text
           (after [GetWebcam (Some "start")]) 0%nat).
  - exists [GetWebcam (Some "start")]. vm_compute. reflexivity.
  - reflexivity.
Defined.


(** The events of a failed spawn followed by a start request, run: the
    second request is given a child and a stream of its own. *)
Example spawn_failure_run :
  pythonProcess (after spawn_failure_events) = Some 1%nat /\
  statusCode <$> (responses (after spawn_failure_events) !! 0%nat) = Some 500 /\
  responses (after spawn_failure_events) !! 1%nat =
    Some (mkResponse 200
            {["Content-Type" := "multipart/x-mixed-replace; boundary=frame"]}
            false [] false).
Proof. repeat split; vm_compute; reflexivity. Qed.

(** C4, on the code: after start, stop, start, the [close] of the first
    child and start, two webcam children are alive, neither of which was
    ever signalled; the second one is no longer referred to by the handle. *)
Theorem two_webcam_children :
  exists s,
    run sample_cwd ascii_text restart_events init = Some s /\
    length (active_webcam s) = 2%nat /\
    is_alive 1%nat s = true /\ is_alive 2%nat s = true /\
    signals <$> (children s !! 1%nat) = Some [] /\
    signals <$> (children s !! 2%nat) = Some [] /\
    pythonProcess s = Some 2%nat.
Proof.
  exists (after restart_events).
  split; [vm_compute; reflexivity |].
  repeat split; vm_compute; reflexivity.
Qed.

(** ** [path.extname] and the filter on sample names *)

Example extname_jpg : Path.extname "zidane.jpg" = ".jpg".
Proof. reflexivity. Qed.

Example extname_upper : Path.extname "BUS.JPEG" = ".JPEG".
Proof. reflexivity. Qed.

Example extname_dotfile : Path.extname ".jpg" = EmptyString.
Proof. reflexivity. Qed.

Example extname_dotdot : Path.extname ".." = EmptyString.
Proof. reflexivity. Qed.

Example extname_two_dots : Path.extname "..png" = ".png".
Proof. reflexivity. Qed.

Example extname_trailing_dot : Path.extname "a." = ".".
Proof. reflexivity. Qed.

Example extname_none : Path.extname "labels" = EmptyString.
Proof. reflexivity. Qed.

Example extname_last : Path.extname "a.tar.bmp" = ".bmp".
Proof. reflexivity. Qed.

Example resolve_output : Path.resolve "/srv/app" ["./output"; id_a] =
                         "/srv/app/output/0123456789abcdef0123456789abcdef".
Proof. reflexivity. Qed.

Example filter_sample : imageFiles listing_a = ["bus.JPG"; "zidane.png"].
Proof. reflexivity. Qed.

Example filter_dotfile : imageFiles [".jpg"; "a.jpg.txt"; "b.BmP"] = ["b.BmP"].
Proof. reflexivity. Qed.

Example show_code_1 : Js.show_code (Some 1) = "1".
Proof. reflexivity. Qed.

(** ** The further properties on the sample deployment *)

Lemma filter_keeps_named_images_witness :
  is_image "bus.JPG" = true <->
  exists stem ext,
    "bus.JPG" = stem +:+ "." +:+ ext /\ stem <> EmptyString /\
    existsb (Js.ci_eqb ext) ["jpg"; "jpeg"; "png"; "bmp"] = true.
Proof.
  apply (filter_keeps_named_images "bus.JPG"). repeat constructor.
Defined.

Lemma upload_keeps_extension_witness :
  Path.extname (multer_filename "image" 1700000000000 "street.photo.JPG") = ".JPG".
Proof.
  apply (upload_keeps_extension "image" 1700000000000 "street.photo.JPG");
    repeat constructor.
Defined.

Lemma webcam_stream_frames_witness :
  responses (after (GetWebcam (Some "start") :: streaming_events)) !! 0%nat =
    Some (stream_response ["JPEG-1"; "JPEG-2"]).
Proof.
  apply (webcam_stream_frames sample_cwd ascii_text init streaming_events
           (after (GetWebcam (Some "start") :: streaming_events))).
  - exists []. reflexivity.
  - reflexivity.
  - vm_compute. reflexivity.
  - reflexivity.
Defined.

Lemma webcam_close_clears_handle_witness :
  exists s',
    step sample_cwd ascii_text (ChildClose 0%nat (Some 0))
         (after [GetWebcam (Some "start")]) = Ok s' /\
    pythonProcess s' = None /\
    is_alive 0%nat s' = false /\
    responses s' = responses (after [GetWebcam (Some "start")]) /\
    trace s' = trace (after [GetWebcam (Some "start")]) ++
      [ConsoleLog [LStr "Python process finished with exit code 0"]] /\
    exists s'',
      step sample_cwd ascii_text (GetWebcam (Some "start")) s' = Ok s'' /\
      pythonProcess s'' = Some 1%nat /\
      is_alive 1%nat s'' = true.
Proof.
  apply (webcam_close_clears_handle sample_cwd ascii_text
           (after [GetWebcam (Some "start")]) 0%nat
           (child_after [GetWebcam (Some "start")] 0%nat) (Some 0)).
  - vm_compute. reflexivity.
  - reflexivity.
Defined.

Lemma invalid_action_rejected_witness :
  step sample_cwd ascii_text (GetWebcam (Some "pause")) init =
    Ok (mkState None None ∅
          {[0%nat :=
              json_response 400
                (JObj [("error", JStr "Invalid action. Use ?action=start or ?action=stop")])]}
          ∅ [] 
          [Sent 0%nat 400
                (JObj [("error", JStr "Invalid action. Use ?action=start or ?action=stop")])]
          0%nat 1%nat).
Proof.
  apply (invalid_action_rejected sample_cwd ascii_text (Some "pause") init).
  - discriminate.
  - discriminate.
Defined.

Lemma start_on_idle_server_witness :
  exists s',
    step sample_cwd ascii_text (GetWebcam (Some "start")) init = Ok s' /\
    pythonProcess s' = Some 0%nat /\
    children s' =
      <[0%nat :=
          mkChild "python3"
            ["/srv/app/yolov5/detect.py";
             "--weights"; "./yolov5/yolov5s.pt"; "--img"; "640"; "--conf"; "0.4";
             "--source"; "0"; "--project"; "./output"; "--name"; "webcam_results"]
            (WebcamProc 0%nat) true []]> ∅ /\
    responses s' =
      <[0%nat :=
          mkResponse 200
            {["Content-Type" := "multipart/x-mixed-replace; boundary=frame"]}
            false [] false]> ∅ /\
    "/srv/app/output" ∈ dirs s' /\
    (MkdirSync "/srv/app/output" ∈ trace s' <->
     MkdirSync "/srv/app/output" ∈ [] \/ "/srv/app/output" ∉ (∅ : gset string)) /\
    next_pid s' = 1%nat /\ next_req s' = 1%nat /\
    image_path s' = None /\ pending s' = [].
Proof.
  apply (start_on_idle_server sample_cwd ascii_text init). reflexivity.
Defined.

Lemma detect_without_file_witness :
  step sample_cwd ascii_text (PostDetect (mkDetectReq None "localhost:3002") id_a) init =
    Ok (mkState None None ∅
          {[0%nat := json_response 400 (JObj [("error", JStr "No image uploaded")])]}
          ∅ []
          [Sent 0%nat 400 (JObj [("error", JStr "No image uploaded")])]
          0%nat 1%nat).
Proof.
  apply (detect_without_file sample_cwd ascii_text
           (mkDetectReq None "localhost:3002") id_a init).
  reflexivity.
Defined.

Lemma listing_failure_witness :
  exists s2,
    step sample_cwd ascii_text (ReaddirDone 0%nat results_a (inl (mkError "ENOENT")))
         (after succeeding_events) = Ok s2 /\
    responses s2 !! 0%nat =
      Some (json_response 500 (JObj [("error", JStr "Failed to read result folder")])) /\
    image_path s2 = image_path (after succeeding_events) /\
    trace s2 = trace (after succeeding_events) ++
      [ConsoleError [LStr "Error reading result folder:"; LError (mkError "ENOENT")];
       Sent 0%nat 500 (JObj [("error", JStr "Failed to read result folder")])].
Proof.
  apply (listing_failure sample_cwd ascii_text init upload_a file_a id_a
           [ChildStdout 0%nat "image 1/1"]
           [UnlinkDone "/srv/app/uploads/image-1700000000000.jpg" (Some (mkError "EPERM"))]
           (after succeeding_events) results_a (mkError "ENOENT")).
  - exists []. reflexivity.
  - reflexivity.
  - vm_compute. reflexivity.
  - reflexivity.
  - reflexivity.
Defined.

Lemma detect_spawn_failure_witness :
  exists s2,
    enabled (ChildError 0%nat (mkError "spawn python3.11 ENOENT"))
            (after [PostDetect upload_a id_a]) = true /\
    step sample_cwd ascii_text (ChildError 0%nat (mkError "spawn python3.11 ENOENT"))
         (after [PostDetect upload_a id_a]) = Ok s2 /\
    responses s2 !! 0%nat =
      Some (json_response 500
              (JObj [("error", JStr "Failed to start the Python process");
                     ("details", JStr "spawn python3.11 ENOENT")])) /\
    enabled (ChildClose 0%nat (Some (-2))) s2 = true /\
    step sample_cwd ascii_text (ChildClose 0%nat (Some (-2))) s2 =
      Uncaught (mkError "ERR_HTTP_HEADERS_SENT").
Proof.
  apply (detect_spawn_failure sample_cwd ascii_text init upload_a file_a id_a []
           (after [PostDetect upload_a id_a]) (mkError "spawn python3.11 ENOENT")
           (Some (-2))).
  - exists []. reflexivity.
  - reflexivity.
  - vm_compute. reflexivity.
  - reflexivity.
  - reflexivity.
Defined.

Lemma handle_refers_to_live_webcam_witness :
  exists c,
    children (after [GetWebcam (Some "start")]) !! 0%nat = Some c /\
    is_webcam c = true /\ alive c = true /\ signals c = [].
Proof.
  apply (handle_refers_to_live_webcam sample_cwd ascii_text
           (after [GetWebcam (Some "start")]) 0%nat).
  - exists [GetWebcam (Some "start")]. vm_compute. reflexivity.
  - reflexivity.
Defined.

Lemma signals_sent_witness :
  (is_webcam (child_after restart_events 0%nat) = false ->
   signals (child_after restart_events 0%nat) = []) /\
  (signals (child_after restart_events 0%nat) = [] \/
   signals (child_after restart_events 0%nat) = ["SIGTERM"]).
Proof.
  apply (signals_sent sample_cwd ascii_text (after restart_events) 0%nat
           (child_after restart_events 0%nat)).
  - exists restart_events. vm_compute. reflexivity.
  - vm_compute. reflexivity.
Defined.

Lemma children_have_their_own_response_witness :
  owner_res (owner (child_after two_jobs 0%nat)) <>
  owner_res (owner (child_after two_jobs 1%nat)) /\
  (owner_res (owner (child_after two_jobs 0%nat)) < next_req (after two_jobs))%nat /\
  (0 < next_pid (after two_jobs))%nat.
Proof.
  apply (children_have_their_own_response sample_cwd ascii_text (after two_jobs)
           0%nat 1%nat (child_after two_jobs 0%nat) (child_after two_jobs 1%nat)).
  - exists two_jobs. vm_compute. reflexivity.
  - vm_compute. reflexivity.
  - vm_compute. reflexivity.
  - discriminate.
Defined.

Lemma other_events_only_signal_child_witness :
  (exists c',
     children (after [GetWebcam (Some "start"); GetWebcam (Some "stop")]) !! 0%nat
       = Some c' /\
     owner c' = owner (child_after [GetWebcam (Some "start")] 0%nat) /\
     alive c' = alive (child_after [GetWebcam (Some "start")] 0%nat) /\
     command c' = command (child_after [GetWebcam (Some "start")] 0%nat) /\
     argv c' = argv (child_after [GetWebcam (Some "start")] 0%nat) /\
     (signals c' = signals (child_after [GetWebcam (Some "start")] 0%nat) \/
      GetWebcam (Some "stop") = GetWebcam (Some "stop") /\
      pythonProcess (after [GetWebcam (Some "start")]) = Some 0%nat /\
      signals c' = signals (child_after [GetWebcam (Some "start")] 0%nat) ++ ["SIGTERM"])) /\
  responses (after [GetWebcam (Some "start"); GetWebcam (Some "stop")])
    !! owner_res (owner (child_after [GetWebcam (Some "start")] 0%nat)) =
  responses (after [GetWebcam (Some "start")])
    !! owner_res (owner (child_after [GetWebcam (Some "start")] 0%nat)).
Proof.
  apply (other_events_only_signal_child sample_cwd ascii_text
           (GetWebcam (Some "stop")) (after [GetWebcam (Some "start")])
           (after [GetWebcam (Some "start"); GetWebcam (Some "stop")]) 0%nat
           (child_after [GetWebcam (Some "start")] 0%nat)).
  - exists [GetWebcam (Some "start")]. vm_compute. reflexivity.
  - vm_compute. reflexivity.
  - discriminate.
  - vm_compute. reflexivity.
Defined.

Lemma writers_of_globals_witness :
  (image_path (after [PostDetect upload_a id_a]) <> image_path init ->
   exists p path files, PostDetect upload_a id_a = ReaddirDone p path (inr files)) /\
  (pythonProcess (after [PostDetect upload_a id_a]) <> pythonProcess init ->
   (exists action, PostDetect upload_a id_a = GetWebcam action) \/
   (exists p code c, PostDetect upload_a id_a = ChildClose p code /\
                     children init !! p = Some c /\ is_webcam c = true)).
Proof.
  apply (writers_of_globals sample_cwd ascii_text (PostDetect upload_a id_a) init
           (after [PostDetect upload_a id_a])).
  vm_compute. reflexivity.
Defined.

Lemma detector_contract_witness :
  exists c src proj,
    src = "/srv/app/uploads/image-1700000000000.jpg" /\
    proj = "/srv/app/output/0123456789abcdef0123456789abcdef" /\
    children (after (PostDetect upload_a id_a :: failing_events)) !! 0%nat = Some c /\
    command c = "python3.11" /\
    argv c = ["/srv/app/yolov5/detect.py";
              "--weights"; "./yolov5/yolov5s.pt"; "--img"; "640"; "--conf"; "0.4";
              "--source"; src; "--project"; proj; "--name"; "results"] /\
    (forall code, exists s2 rest,
       step sample_cwd ascii_text (ChildClose 0%nat code)
            (after (PostDetect upload_a id_a :: failing_events)) = Ok s2 /\
       trace s2 = trace (after (PostDetect upload_a id_a :: failing_events))
                  ++ FsUnlink src :: rest) /\
    (exists s2,
       step sample_cwd ascii_text (ChildClose 0%nat (Some 0))
            (after (PostDetect upload_a id_a :: failing_events)) = Ok s2 /\
       last (trace s2) = Some (FsReaddir (Path.join proj "results"))).
Proof.
  apply (detector_contract sample_cwd ascii_text init upload_a file_a id_a failing_events
           (after (PostDetect upload_a id_a :: failing_events))).
  - exists []. reflexivity.
  - reflexivity.
  - vm_compute. reflexivity.
  - reflexivity.
Defined.

Lemma job_answers_only_at_exit_witness :
  responses (after (PostDetect upload_a id_a :: failing_events)) !! 0%nat
    = Some fresh_response /\
  is_alive 0%nat (after (PostDetect upload_a id_a :: failing_events)) = true.
Proof.
  apply (job_answers_only_at_exit sample_cwd ascii_text init upload_a file_a id_a
           failing_events (after (PostDetect upload_a id_a :: failing_events))).
  - exists []. reflexivity.
  - reflexivity.
  - vm_compute. reflexivity.
  - reflexivity.
Defined.

Lemma urls_do_not_collide_witness :
  id_a = id_a /\ "bus.JPG" = "bus.JPG".
Proof.
  apply (urls_do_not_collide id_a id_a "bus.JPG" "bus.JPG"); reflexivity.
Defined.

Lemma url_mirrors_disk_path_witness :
  exists rel,
    image_url id_a "bus.JPG" = "http://localhost:3002/output" +:+ rel /\
    Path.join (Path.join (Path.resolve sample_cwd ["./output"; id_a]) "results") "bus.JPG" =
      Path.resolve sample_cwd ["./output"] +:+ rel.
Proof.
  apply (url_mirrors_disk_path sample_cwd id_a "bus.JPG"). reflexivity.
Defined.

Lemma job_folders_distinct_witness : id_a = id_a.
Proof.
  apply (job_folders_distinct sample_cwd id_a id_a); reflexivity.
Defined.
